(** * Monte Carlo projection engine: a shallow embedding

    Source files embedded here (paths relative to src/backend):
    - app/core/exceptions.py         (exception taxonomy)
    - app/services/redis_service.py  (RedisService.get / RedisService.set)
    - app/ml/monte_carlo.py          (MonteCarloSimulator, calculate_confidence_interval)
    - app/workers/simulation_tasks.py (generate_cache_key, simulate_lineup_task)

    Conventions.
    - Python floats (numpy float64) are idealised as real numbers extended
      with NaN: rounding, overflow and infinities are not modelled, NaN is,
      because numpy returns it for the mean of an empty array.
    - Exceptions are values of [exn]; a call that may raise returns a
      [result].  Stateful collaborators (the Redis server, the health flag
      of a RedisService object) are threaded explicitly.
    - Collaborators outside the engine (the preprocessor, the bit generator
      behind numpy's Generator, scipy's norm.ppf, hashlib.md5,
      multiprocessing.cpu_count) are the fields of the class
      [Collaborators]; the definitions and theorems hold for every
      instance. *)

From stdpp Require Import gmap strings sorting.
From Stdlib Require Import ZArith Reals Lra Lia.

Local Open Scope Z_scope.

(** ** Exceptions (app/core/exceptions.py) *)

Module Exceptions.

(** The subclasses of BaseAppException that the engine meets, each with the
    [error_code] it was constructed with.  [SimulationError] is imported by
    monte_carlo.py from app.core.exceptions; its class statement is not in
    the file, so it is taken as one more subclass that stores the code it is
    raised with.  [ValueError] and [RedisError] are the library exceptions
    that the code catches by [except]; [NotImplementedError] is the one with
    which a process pool refuses to be pickled. *)
Inductive exn : Type :=
| SimulationError (error_code : Z)
| ValidationError (error_code : Z)
| IntegrationError (error_code : Z)
| ValueError
| RedisError
| NotImplementedError.

(** Default codes of the constructors' keyword arguments. *)
Definition VALIDATION_DEFAULT_CODE : Z := 3000.
Definition INTEGRATION_DEFAULT_CODE : Z := 6000.

Inductive result (A : Type) : Type :=
| Ok (a : A)
| Err (e : exn).
Global Arguments Ok {A} a.
Global Arguments Err {A} e.

(** Sequencing: an exception raised by [r] skips the rest. *)
Global Instance result_bind : MBind result := fun A B k r =>
  match r with
  | Ok a => k a
  | Err e => Err e
  end.
Global Instance result_ret : MRet result := fun A a => Ok a.

(** [try: r except Exception: raise e'] *)
Definition reraise_as {A} (e' : exn) (r : result A) : result A :=
  match r with
  | Ok a => Ok a
  | Err _ => Err e'
  end.

(** A comprehension or loop that calls [f] on each element in order and
    stops at the first exception. *)
Fixpoint for_each {A B} (f : A -> result B) (l : list A) : result (list B) :=
  match l with
  | [] => Ok []
  | x :: l' => y ← f x; ys ← for_each f l'; Ok (y :: ys)
  end.

End Exceptions.
Import Exceptions.

(** ** numpy primitives on float arrays *)

Module Numpy.

Local Open Scope R_scope.

Inductive float64 : Type :=
| NaN
| Fin (r : R).

Definition lift2 (op : R -> R -> R) (a b : float64) : float64 :=
  match a, b with
  | Fin x, Fin y => Fin (op x y)
  | _, _ => NaN
  end.

Definition fadd := lift2 Rplus.
Definition fsub := lift2 Rminus.
Definition fmul := lift2 Rmult.

(** Division of numpy scalars does not raise on a zero divisor.  The only
    zero divisor in this program is [np.sqrt(len(a))] for an empty [a],
    whose numerator [np.std(a)] is already NaN; x/0 is mapped to NaN. *)
Definition fdiv (a b : float64) : float64 :=
  match a, b with
  | Fin x, Fin y => if Req_dec_T y 0 then NaN else Fin (x / y)
  | _, _ => NaN
  end.

(** IEEE comparisons: false as soon as one side is NaN. *)
Definition fle (a b : float64) : Prop :=
  match a, b with
  | Fin x, Fin y => x <= y
  | _, _ => False
  end.

Definition flt (a b : float64) : Prop :=
  match a, b with
  | Fin x, Fin y => x < y
  | _, _ => False
  end.

(** An ndarray of finite values. *)
Definition ndarray := list R.

(** [sum(a)] and [np.sum(a)]; over the reals the order of the additions is
    immaterial. *)
Definition total (a : ndarray) : R := foldr Rplus 0 a.

Definition len (a : ndarray) : R := INR (length a).

(** [np.mean(a)]: NaN (with a RuntimeWarning, not an exception) for an
    empty array. *)
Definition np_mean (a : ndarray) : float64 :=
  match a with
  | [] => NaN
  | _ => Fin (total a / len a)
  end.

Definition sq_dev (m : R) (a : ndarray) : R :=
  total (map (fun x => (x - m) * (x - m)) a).

(** [np.std(a)] with its default [ddof=0]:
    sqrt(mean(abs(a - a.mean())**2)); NaN for an empty array. *)
Definition np_std (a : ndarray) : float64 :=
  match a with
  | [] => NaN
  | _ => Fin (sqrt (sq_dev (total a / len a) a / len a))
  end.

(** [np.sqrt(len(a))] *)
Definition np_sqrt_len (a : ndarray) : float64 := Fin (sqrt (len a)).

(** Python's [max(0, x)]: the first argument is kept unless a later one
    compares greater, and NaN never compares greater. *)
Definition py_max0 (x : float64) : R :=
  match x with
  | NaN => 0
  | Fin r => Rmax 0 r
  end.

End Numpy.
Import Numpy.

(** ** The result dictionary (monte_carlo.py, lines 145-155) *)

Record ConfidenceInterval : Type := {
  lower : float64;
  upper : float64;
  level : R
}.

(** The dict returned by [simulate_lineup_performance].  [cached] is [None]
    when the dict has no ['cached'] key. *)
Record SimulationResult : Type := {
  expected_points : float64;
  standard_deviation : float64;
  confidence_interval : ConfidenceInterval;
  simulations_run : Z;
  timestamp : string;
  cached : option bool
}.

(** ** RedisService (app/services/redis_service.py) *)

Module Redis.

(** The Redis server as the client sees it: the keys it holds and a script
    of outages, one entry consumed by each command ([true]: this command
    raises redis.RedisError, a timeout or a connection error).  Values are
    stored as the dict itself: [json.dumps] followed by [json.loads] gives
    the dict back.  Expiry of the TTL is outside the model (no clock). *)
Record server : Type := {
  outages : list bool;
  db : gmap string SimulationResult
}.

(** One command reaches the server or fails. *)
Definition command (srv : server) : result unit * server :=
  match outages srv with
  | true :: rest => (Err RedisError, {| outages := rest; db := db srv |})
  | false :: rest => (Ok (), {| outages := rest; db := db srv |})
  | [] => (Ok (), srv)
  end.

(** [self._client.get(key)] *)
Definition client_get (key : string) (srv : server)
  : result (option SimulationResult) * server :=
  match command srv with
  | (Ok _, srv') => (Ok (db srv' !! key), srv')
  | (Err e, srv') => (Err e, srv')
  end.

(** [self._client.setex(key, ttl, serialized_value)] *)
Definition client_setex (key : string) (ttl : Z) (value : SimulationResult)
    (srv : server) : result unit * server :=
  match command srv with
  | (Ok _, srv') =>
      (Ok (), {| outages := outages srv'; db := <[key := value]> (db srv') |})
  | (Err e, srv') => (Err e, srv')
  end.

(** A RedisService object: only [_healthy] is read by [get] and [set]. *)
Record RedisService : Type := { _healthy : bool }.

(** [RedisService()]: building the connection pool sends no command. *)
Definition RedisService_init : RedisService := {| _healthy := true |}.

(** [RedisService.get], lines 96-126.  The IntegrationError of the health
    check is not a RedisError, so it leaves the [try] as it is; a RedisError
    marks the service unhealthy and is raised again as IntegrationError.
    [monitor] wraps the coroutine function in a plain function, so [retry]
    only sees a coroutine object being returned: the body runs once, when
    the caller awaits it. *)
Definition get (self : RedisService) (key : string) (srv : server)
  : result (option SimulationResult) * RedisService * server :=
  if negb (_healthy self)
  then (Err (IntegrationError INTEGRATION_DEFAULT_CODE), self, srv)
  else
    match client_get key srv with
    | (Ok found, srv') => (Ok found, self, srv')
    | (Err _, srv') =>
        (Err (IntegrationError INTEGRATION_DEFAULT_CODE),
         {| _healthy := false |}, srv')
    end.

(** [RedisService.set], lines 133-166. *)
Definition set (self : RedisService) (key : string) (value : SimulationResult)
    (ttl : Z) (srv : server) : result bool * RedisService * server :=
  if negb (_healthy self)
  then (Err (IntegrationError INTEGRATION_DEFAULT_CODE), self, srv)
  else
    match client_setex key ttl value srv with
    | (Ok _, srv') => (Ok true, self, srv')
    | (Err _, srv') =>
        (Err (IntegrationError INTEGRATION_DEFAULT_CODE),
         {| _healthy := false |}, srv')
    end.

(** [self._client.delete(key)]: deleting an absent key is not an error. *)
Definition client_delete (key : string) (srv : server)
  : result unit * server :=
  match command srv with
  | (Ok _, srv') =>
      (Ok (), {| outages := outages srv'; db := base.delete key (db srv') |})
  | (Err e, srv') => (Err e, srv')
  end.

(** [RedisService.delete], lines 173-202. *)
Definition delete (self : RedisService) (key : string) (srv : server)
  : result bool * RedisService * server :=
  if negb (_healthy self)
  then (Err (IntegrationError INTEGRATION_DEFAULT_CODE), self, srv)
  else
    match client_delete key srv with
    | (Ok _, srv') => (Ok true, self, srv')
    | (Err _, srv') =>
        (Err (IntegrationError INTEGRATION_DEFAULT_CODE),
         {| _healthy := false |}, srv')
    end.

End Redis.

(** ** Collaborators of the engine

    What the engine calls but does not own.  [seed_bitgen] and
    [standard_normal] stand for the bit generator behind
    [np.random.default_rng]: a state and a draw from N(0,1) that returns the
    next state.  [preprocess_player_data] gives [player['data']['points']],
    the historical points of a player, or raises. *)
Class Collaborators : Type := {
  cpu_count : Z;
  bitgen : Type;
  seed_bitgen : Z -> bitgen;
  standard_normal : bitgen -> R * bitgen;
  preprocess_player_data : string -> result ndarray;
  norm_ppf : R -> float64;
  md5_hexdigest : string -> string
}.

(** ['_'.join(parts)] *)
Fixpoint join (sep : string) (parts : list string) : string :=
  match parts with
  | [] => ""
  | [x] => x
  | x :: rest => x +:+ sep +:+ join sep rest
  end.

(** ** app/ml/monte_carlo.py *)

Module MonteCarlo.
Section Defs.
Context `{Collaborators}.

Definition SIMULATION_CACHE_PREFIX : string := "monte_carlo_sim:".
Definition SIMULATION_CACHE_TTL : Z := 3600.
Definition DEFAULT_N_SIMULATIONS : Z := 10000.
Definition CONFIDENCE_INTERVAL : R := (95 / 100)%R.
Definition MAX_PARALLEL_PROCESSES : Z := Z.min 4 cpu_count.
Definition CACHE_ENABLED : bool := true.

(** *** calculate_confidence_interval and its decorator *)

(** How a call site passes [confidence_level]. *)
Inductive level_arg : Type :=
| Positional (c : R)
| Keyword (c : R)
| Omitted.

Definition confidence_level_of (lv : level_arg) : R :=
  match lv with
  | Positional c | Keyword c => c
  | Omitted => CONFIDENCE_INTERVAL
  end.

Inductive pyval : Type :=
| PyArray (a : ndarray)
| PyFloat (c : R).

(** [isinstance(v, (list, np.ndarray))] *)
Definition isinstance_list_or_ndarray (v : pyval) : bool :=
  match v with
  | PyArray _ => true
  | PyFloat _ => false
  end.

(** The tuple [args] that the wrapper of [validate_input] receives:
    [calculate_confidence_interval] is a module-level function, so
    [args[0]] is the array and [args[1]], when present, is the confidence
    level. *)
Definition positional_args (a : ndarray) (lv : level_arg) : list pyval :=
  PyArray a :: match lv with
               | Positional c => [PyFloat c]
               | Keyword _ | Omitted => []
               end.

(** [validate_input], lines 55-66: the test is on [args[1]]. *)
Definition validate_input {A} (func : ndarray -> level_arg -> result A)
    (a : ndarray) (lv : level_arg) : result A :=
  match positional_args a lv with
  | _ :: arg1 :: _ =>
      if negb (isinstance_list_or_ndarray arg1)
      then Err (SimulationError 3010)
      else func a lv
  | _ => func a lv
  end.

(** Body of [calculate_confidence_interval], lines 251-264.  Every
    operation of the [try] block is total on an array of floats; the
    [except] clause is kept as written. *)
Definition confidence_interval_body (simulation_results : ndarray)
    (lv : level_arg) : result (float64 * float64) :=
  reraise_as (SimulationError 3014)
    (let confidence_level := confidence_level_of lv in
     let mean := np_mean simulation_results in
     let std_error :=
       fdiv (np_std simulation_results) (np_sqrt_len simulation_results) in
     let z_score := norm_ppf ((1 + confidence_level) / 2) in
     let margin := fmul z_score std_error in
     Ok (fsub mean margin, fadd mean margin)).

Definition calculate_confidence_interval
  : ndarray -> level_arg -> result (float64 * float64) :=
  validate_input confidence_interval_body.

(** *** The simulator object *)

Record MonteCarloSimulator : Type := {
  _rng : bitgen;
  _cache_enabled : bool;
  _redis_service : Redis.RedisService
}.

(** [np.random.default_rng(seed)]: with [None] the generator is seeded from
    the operating system's entropy, an input of the model. *)
Definition default_rng (random_seed : option Z) (entropy : Z) : bitgen :=
  seed_bitgen (default entropy random_seed).

(** The object that [MonteCarloSimulator.__init__], lines 71-90, sets up.
    [n_processes] only sizes the pool; no method reads it.  The
    constructors called on lines 85-89 (DataPreprocessor, RedisService,
    Pool) are not run here: the methods below are stated for any [self]. *)
Definition init (random_seed : option Z) (entropy : Z) (cache_enabled : bool)
  : MonteCarloSimulator :=
  {| _rng := default_rng random_seed entropy;
     _cache_enabled := cache_enabled;
     _redis_service := Redis.RedisService_init |}.

Definition with_service (self : MonteCarloSimulator)
    (svc : Redis.RedisService) : MonteCarloSimulator :=
  {| _rng := _rng self;
     _cache_enabled := _cache_enabled self;
     _redis_service := svc |}.

(** [Generator.normal(loc, scale)]: ValueError for a negative scale, NaN
    when an argument is NaN; one draw is consumed. *)
Definition rng_normal (g : bitgen) (loc scale : float64)
  : result (float64 * bitgen) :=
  match scale with
  | Fin s =>
      if Rlt_dec s 0 then Err ValueError
      else let '(z, g') := standard_normal g in
           Ok (fadd loc (Fin (s * z)), g')
  | NaN => let '(z, g') := standard_normal g in Ok (NaN, g')
  end.

(** The generator state after [k] draws. *)
Definition advance (k : nat) (g : bitgen) : bitgen :=
  Nat.iter k (fun g' => (standard_normal g').2) g.

(** The standard normal draw that the generator yields after [i] earlier
    draws. *)
Definition draw (i : nat) (g : bitgen) : R := (standard_normal (advance i g)).1.

(** Lines 219-225: the inner loop over the players of one trial. *)
Fixpoint sample_players (g : bitgen) (player_data : list ndarray)
  : result (list R * bitgen) :=
  match player_data with
  | [] => Ok ([], g)
  | player :: rest =>
      let mean_points := np_mean player in
      let std_points := np_std player in
      '(points, g1) ← rng_normal g mean_points std_points;
      '(player_points, g2) ← sample_players g1 rest;
      Ok (py_max0 points :: player_points, g2)
  end.

(** Lines 218-226: [results[i] = sum(player_points)] for i in range(k). *)
Fixpoint run_trials (k : nat) (g : bitgen) (player_data : list ndarray)
  : result (ndarray * bitgen) :=
  match k with
  | O => Ok ([], g)
  | S k' =>
      '(player_points, g1) ← sample_players g player_data;
      '(results, g2) ← run_trials k' g1 player_data;
      Ok (total player_points :: results, g2)
  end.

(** [_simulate_single_lineup], lines 201-234.  [np.zeros(n)] raises
    ValueError for a negative [n]. *)
Definition _simulate_single_lineup (self : MonteCarloSimulator)
    (player_data : list ndarray) (n_simulations : Z) : result ndarray :=
  reraise_as (SimulationError 3013)
    (if n_simulations <? 0 then Err ValueError
     else '(results, _) ← run_trials (Z.to_nat n_simulations)
                                      (_rng self) player_data;
          Ok results).

(** [self._process_pool.starmap(simulation_func, data_chunks)] with the
    bound method [self._simulate_single_lineup] as function, line 191.  The
    pool sends every task to a worker pickled together with the function,
    and pickling a bound method pickles [self], which holds the pool itself
    (line 89) and the Redis client.  A pool cannot be pickled, so with at
    least one chunk [starmap] raises in the caller and no worker runs a
    trial; with no chunk there is nothing to send and the result is the
    empty list.  Which attribute fails to pickle first does not matter to
    the callers: line 193 catches every exception and raises code 3012. *)
Definition starmap_bound_method (self : MonteCarloSimulator)
    (data_chunks : list (list ndarray * Z)) : result (list ndarray) :=
  match data_chunks with
  | [] => Ok []
  | _ :: _ => Err NotImplementedError
  end.

(** [_parallel_simulate], lines 175-199. *)
Definition _parallel_simulate (self : MonteCarloSimulator)
    (data_chunks : list (list ndarray * Z)) : result (list ndarray) :=
  reraise_as (SimulationError 3012) (starmap_bound_method self data_chunks).

(** [np.concatenate(arrays)] raises ValueError on an empty list of arrays. *)
Definition np_concatenate (arrays : list ndarray) : result ndarray :=
  match arrays with
  | [] => Err ValueError
  | _ => Ok (concat arrays)
  end.

(** *** simulate_lineup_performance, lines 92-173 *)

(** Line 109. *)
Definition lineup_cache_key (player_ids : list string) : string :=
  SIMULATION_CACHE_PREFIX +:+ "lineup:" +:+ join "_" player_ids.

(** Lines 125-126. *)
Definition simulation_chunks (n_simulations : Z) : list Z :=
  let chunk_size := n_simulations / MAX_PARALLEL_PROCESSES in
  replicate (Z.to_nat MAX_PARALLEL_PROCESSES) chunk_size.

(** Lines 118-135: preprocessing, chunking, sampling, concatenation. *)
Definition sample_lineup (self : MonteCarloSimulator)
    (player_ids : list string) (n_simulations : Z) : result ndarray :=
  player_data ← for_each preprocess_player_data player_ids;
  simulation_results ←
    _parallel_simulate self
      (map (fun chunk => (player_data, chunk))
           (simulation_chunks n_simulations));
  np_concatenate simulation_results.

(** Lines 145-155. *)
Definition build_result (mean_points std_points ci_lower ci_upper : float64)
    (n_simulations : Z) (now : string) : SimulationResult :=
  {| expected_points := mean_points;
     standard_deviation := std_points;
     confidence_interval :=
       {| lower := ci_lower; upper := ci_upper;
          level := CONFIDENCE_INTERVAL |};
     simulations_run := n_simulations;
     timestamp := now;
     cached := None |}.

(** Lines 136-155: the confidence level is passed positionally. *)
Definition aggregate (combined_results : ndarray) (n_simulations : Z)
    (now : string) : result SimulationResult :=
  let mean_points := np_mean combined_results in
  let std_points := np_std combined_results in
  '(ci_lower, ci_upper) ←
    calculate_confidence_interval combined_results
      (Positional CONFIDENCE_INTERVAL);
  Ok (build_result mean_points std_points ci_lower ci_upper
        n_simulations now).

(** Lines 112-115: [Some] is a cache hit that is returned, [None] a miss or
    a bypassed cache.  The [await] is outside the [try] of line 117. *)
Definition cache_check (self : MonteCarloSimulator) (cache_key : string)
    (force_refresh : bool) (srv : Redis.server)
  : result (option SimulationResult) * MonteCarloSimulator * Redis.server :=
  if _cache_enabled self && negb force_refresh
  then let '(r, svc, srv') :=
         Redis.get (_redis_service self) cache_key srv in
       (r, with_service self svc, srv')
  else (Ok None, self, srv).

(** The whole method.  [now] is the reading of [datetime.utcnow()].  The
    returned simulator and server are the states after the call. *)
Definition simulate_lineup_performance (self : MonteCarloSimulator)
    (player_ids : list string) (n_simulations : Z) (force_refresh : bool)
    (now : string) (srv : Redis.server)
  : result SimulationResult * MonteCarloSimulator * Redis.server :=
  let cache_key := lineup_cache_key player_ids in
  match cache_check self cache_key force_refresh srv with
  | (Err e, self1, srv1) => (Err e, self1, srv1)
  | (Ok (Some cached_result), self1, srv1) => (Ok cached_result, self1, srv1)
  | (Ok None, self1, srv1) =>
      match (combined_results ← sample_lineup self1 player_ids n_simulations;
             aggregate combined_results n_simulations now) with
      | Err _ => (Err (SimulationError 3011), self1, srv1)
      | Ok res =>
          if _cache_enabled self1
          then match Redis.set (_redis_service self1) cache_key res
                       SIMULATION_CACHE_TTL srv1 with
               | (Ok _, svc, srv2) => (Ok res, with_service self1 svc, srv2)
               | (Err _, svc, srv2) =>
                   (Err (SimulationError 3011), with_service self1 svc, srv2)
               end
          else (Ok res, self1, srv1)
      end
  end.

End Defs.
End MonteCarlo.

(** ** app/workers/simulation_tasks.py *)

Module SimulationTasks.
Section Defs.
Context `{Collaborators}.

Definition SIMULATION_RANDOM_SEED : Z := 42.
Definition CACHE_KEY_PREFIX : string := "sim_task:".
Definition CACHE_TTL_SECONDS : Z := 3600.

(** [sorted(key_parts)] on strings: the ascending order of [str]. *)
Definition sorted (parts : list string) : list string :=
  merge_sort String.le parts.

(** [generate_cache_key], lines 24-29; the arguments are strings, on which
    [str] is the identity. *)
Definition generate_cache_key (prefix : string) (args : list string)
  : string :=
  let key_parts := args in
  let key_string := join "_" (sorted key_parts) in
  CACHE_KEY_PREFIX +:+ prefix +:+ ":" +:+ md5_hexdigest key_string.

(** Line 121:
    [generate_cache_key('trade', *players_offered, *players_requested)] *)
Definition trade_cache_key (players_offered players_requested : list string)
  : string :=
  generate_cache_key "trade" (players_offered ++ players_requested).

(** Line 185: [generate_cache_key('season', team_id)] *)
Definition season_cache_key (team_id : string) : string :=
  generate_cache_key "season" [team_id].

(** [{**d, 'cached': flag, 'timestamp': now}] *)
Definition mark (d : SimulationResult) (flag : bool) (now : string)
  : SimulationResult :=
  {| expected_points := expected_points d;
     standard_deviation := standard_deviation d;
     confidence_interval := confidence_interval d;
     simulations_run := simulations_run d;
     timestamp := now;
     cached := Some flag |}.

(** [simulate_lineup_task], lines 38-92.  [entropy] and [now_sim] feed the
    simulator it creates, [now] is the task's own reading of the clock.
    The simulator is called without [force_refresh], hence with [False],
    and with its cache enabled.  No call of the task is inside a [try]. *)
Definition simulate_lineup_task (player_ids : list string)
    (n_simulations : Z) (force_refresh : bool)
    (entropy : Z) (now_sim now : string) (srv : Redis.server)
  : result SimulationResult * Redis.server :=
  let cache_key := generate_cache_key "lineup" player_ids in
  let redis_service := Redis.RedisService_init in
  let '(looked_up, redis_service1, srv1) :=
    if negb force_refresh
    then Redis.get redis_service cache_key srv
    else (Ok None, redis_service, srv) in
  match looked_up with
  | Err e => (Err e, srv1)
  | Ok (Some cached_result) => (Ok (mark cached_result true now), srv1)
  | Ok None =>
      let simulator :=
        MonteCarlo.init (Some SIMULATION_RANDOM_SEED) entropy
          MonteCarlo.CACHE_ENABLED in
      match MonteCarlo.simulate_lineup_performance simulator player_ids
              n_simulations false now_sim srv1 with
      | (Err e, _, srv2) => (Err e, srv2)
      | (Ok results, _, srv2) =>
          match Redis.set redis_service1 cache_key results
                  CACHE_TTL_SECONDS srv2 with
          | (Err e, _, srv3) => (Err e, srv3)
          | (Ok _, _, srv3) => (Ok (mark results false now), srv3)
          end
      end
  end.

End Defs.
End SimulationTasks.

(** ** BaseAppException (app/core/exceptions.py, lines 25-131)

    Strings model ASCII text, on which [str.lower] folds the letters A-Z.
    A dict of details is a finite map: Python compares dicts regardless of
    the order of insertion. *)

Module AppException.

(** The values met in the details of this code base: a text, a number, a
    list of ids. *)
Inductive detail_value : Type :=
| DStr (s : string)
| DInt (z : Z)
| DList (l : list string).

Definition REDACTED : detail_value := DStr "[REDACTED]".

(** Line 79. *)
Definition sensitive_fields : list string :=
  ["password"; "token"; "secret"; "key"; "credential"].

Definition lower_ascii (c : Ascii.ascii) : Ascii.ascii :=
  let n := Ascii.nat_of_ascii c in
  if (65 <=? n)%nat && (n <=? 90)%nat
  then Ascii.ascii_of_nat (n + 32)
  else c.

(** [s.lower()] *)
Fixpoint lower (s : string) : string :=
  match s with
  | EmptyString => EmptyString
  | String c s' => String (lower_ascii c) (lower s')
  end.

(** [s.startswith(p)] *)
Fixpoint starts_with (p s : string) : bool :=
  match p, s with
  | EmptyString, _ => true
  | String _ _, EmptyString => false
  | String a p', String b s' =>
      if decide (a = b) then starts_with p' s' else false
  end.

(** [p in s] *)
Fixpoint contains (p s : string) : bool :=
  starts_with p s ||
  match s with
  | EmptyString => false
  | String _ s' => contains p s'
  end.

(** Line 83: [any(field in key.lower() for field in sensitive_fields)] *)
Definition is_sensitive (key : string) : bool :=
  existsb (fun field => contains field (lower key)) sensitive_fields.

(** [_sanitize_details], lines 69-88. *)
Definition _sanitize_details (details : gmap string detail_value)
  : gmap string detail_value :=
  map_imap (fun key value =>
              Some (if is_sensitive key then REDACTED else value))
           details.

Record BaseAppException : Type := {
  message : string;
  status_code : Z;
  error_code : Z;
  details : gmap string detail_value;
  correlation_id : string;
  timestamp : string
}.

(** [x or y] on an optional string: [None] and the empty string are falsy. *)
Definition or_else (x : option string) (y : string) : string :=
  match x with
  | Some c => if decide (c = EmptyString) then y else c
  | None => y
  end.

(** [__init__], lines 39-67.  [uuid4] and [now] are the readings of
    [uuid.uuid4()] and [datetime.utcnow()]; logging has no effect on the
    object. *)
Definition init (message : string) (status_code error_code : Z)
    (details : option (gmap string detail_value))
    (correlation_id : option string) (uuid4 now : string)
  : BaseAppException :=
  {| message := message;
     status_code := status_code;
     error_code := error_code;
     details := _sanitize_details (default ∅ details);
     correlation_id := or_else correlation_id uuid4;
     timestamp := now |}.

(** The dict built by [to_dict]; [dict_details] is [None] when the dict has
    no ['details'] key. *)
Record error_dict : Type := {
  dict_status : string;
  dict_code : Z;
  dict_message : string;
  dict_correlation_id : string;
  dict_timestamp : string;
  dict_details : option (gmap string detail_value)
}.

(** [to_dict], lines 90-108: an empty dict of details is falsy. *)
Definition to_dict (self : BaseAppException) : error_dict :=
  {| dict_status := "error";
     dict_code := error_code self;
     dict_message := message self;
     dict_correlation_id := correlation_id self;
     dict_timestamp := timestamp self;
     dict_details :=
       if decide (details self = ∅) then None else Some (details self) |}.

End AppException.

(** ** The specification's wording, for comparison *)

Module Spec.

Local Open Scope R_scope.

(** "sample std-dev, i.e., divide by n-1 when n>1; for n=1,
    standard_deviation = 0" *)
Definition sample_std (a : ndarray) : float64 :=
  match a with
  | [] => NaN
  | [_] => Fin 0
  | _ => Fin (sqrt (sq_dev (total a / len a) a / (len a - 1)))
  end.

End Spec.

(** ** Observations used in the statements *)

(** Number of trials handed to the workers. *)
Definition trials_scheduled (chunks : list Z) : Z := foldr Z.add 0 chunks.

(** What the caller gets: the value returned or the exception raised. *)
Definition outcome {A B C : Type} (x : A * B * C) : A := x.1.1.

(** The two aggregate statistics of a response. *)
Definition stats (r : result SimulationResult) : result (float64 * float64) :=
  d ← r; Ok (expected_points d, standard_deviation d).

(** ** A concrete set of collaborators

    A host with four CPUs, a counter as bit generator whose draws cycle
    through -1, 0, 1, two players with a points history and one for which
    preprocessing raises, the 97.5% quantile of the normal law tabulated at
    the one level the engine asks for, and a digest that keeps its input. *)

Module Demo.

Local Open Scope R_scope.

Definition draw (g : Z) : R * Z :=
  (IZR (g mod 3 - 1), (g + 1)%Z).

Definition history (player_id : string) : result ndarray :=
  if decide (player_id = "p1") then Ok [10; 20]
  else if decide (player_id = "p2") then Ok [4; 4; 4]
  else Err (ValidationError 3005).

Definition collaborators : Collaborators :=
  {| cpu_count := 4;
     bitgen := Z;
     seed_bitgen := fun seed => seed;
     standard_normal := draw;
     preprocess_player_data := history;
     norm_ppf := fun _ => Fin (1959964 / 1000000);
     md5_hexdigest := fun s => s |}.

Definition empty_server : Redis.server :=
  {| Redis.outages := []; Redis.db := ∅ |}.

(** The first command sent to this server times out. *)
Definition failing_server : Redis.server :=
  {| Redis.outages := [true]; Redis.db := ∅ |}.

(** Two trial outcomes. *)
Definition two_outcomes : ndarray := [0; 2].

(** The seeded simulator that the worker task builds. *)
Definition simulator : @MonteCarlo.MonteCarloSimulator collaborators :=
  @MonteCarlo.init collaborators (Some 42%Z) 0%Z true.

(** A result as the facade would store it. *)
Definition stored : SimulationResult :=
  {| expected_points := Fin 15;
     standard_deviation := Fin 5;
     confidence_interval :=
       {| lower := Fin 14; upper := Fin 16; level := 95 / 100 |};
     simulations_run := 8;
     timestamp := "2024-01-01T00:00:00";
     cached := None |}.

(** A server that holds [stored] under the facade's key for ["p1"]. *)
Definition warm_server : Redis.server :=
  {| Redis.outages := [];
     Redis.db := {[ MonteCarlo.lineup_cache_key ["p1"] := stored ]} |}.

(** A server that holds [stored] under the facade's key for ["a"; "b"]. *)
Definition ab_server : Redis.server :=
  {| Redis.outages := [];
     Redis.db := {[ MonteCarlo.lineup_cache_key ["a"; "b"] := stored ]} |}.

(** A server that holds [stored] under the task's key for the lineup of
    "p1" and "p2". *)
Definition pair_server : Redis.server :=
  {| Redis.outages := [];
     Redis.db :=
       {[ @SimulationTasks.generate_cache_key collaborators "lineup"
            ["p1"; "p2"] := stored ]} |}.

(** A lineup of one player whose history has no spread and one player
    without history. *)
Definition flat_lineup : list ndarray := [[4; 4; 4]; []].

(** A server that holds [stored] under the task's key for ["p1"]. *)
Definition task_warm_server : Redis.server :=
  {| Redis.outages := [];
     Redis.db :=
       {[ @SimulationTasks.generate_cache_key collaborators "lineup" ["p1"]
          := stored ]} |}.

End Demo.

(** * Properties *)

(** ** Arithmetic of the numpy primitives *)

Section NumpyFacts.
Local Open Scope R_scope.

Lemma total_nonneg (a : ndarray) :
  Forall (fun x => 0 <= x) a -> 0 <= total a.
Proof.
  induction 1 as [|x a Hx _ IH]; simpl.
  - lra.
  - cbv beta in Hx. lra.
Qed.

Lemma total_app (a b : ndarray) : total (a ++ b) = total a + total b.
Proof.
  induction a as [|x a IH]; simpl.
  - lra.
  - rewrite IH. lra.
Qed.

Lemma len_pos (a : ndarray) : a <> [] -> 0 < len a.
Proof.
  intros Ha. unfold len. apply lt_0_INR.
  destruct a; [congruence | simpl; lia].
Qed.

Lemma sq_dev_nonneg (m : R) (a : ndarray) : 0 <= sq_dev m a.
Proof.
  unfold sq_dev. apply total_nonneg.
  induction a as [|x a IH]; simpl; [constructor |].
  constructor; [| exact IH].
  change (0 <= Rsqr (x - m)). apply Rle_0_sqr.
Qed.

Lemma np_mean_fin (a : ndarray) :
  a <> [] -> np_mean a = Fin (total a / len a).
Proof. destruct a; [congruence | reflexivity]. Qed.

Lemma np_std_fin (a : ndarray) :
  a <> [] -> np_std a = Fin (sqrt (sq_dev (total a / len a) a / len a)).
Proof. destruct a; [congruence | reflexivity]. Qed.

(** [np.std] is NaN or a non-negative number. *)
Lemma np_std_nonneg (a : ndarray) (s : R) : np_std a = Fin s -> 0 <= s.
Proof.
  destruct a as [|x a]; simpl; [discriminate |].
  intros [= <-]. apply sqrt_pos.
Qed.

Lemma np_mean_nonneg (a : ndarray) :
  a <> [] -> Forall (fun x => 0 <= x) a ->
  exists m, np_mean a = Fin m /\ 0 <= m.
Proof.
  intros Ha Hpos. rewrite np_mean_fin by exact Ha.
  eexists; split; [reflexivity |].
  apply Rmult_le_pos; [apply total_nonneg, Hpos |].
  left. apply Rinv_0_lt_compat, len_pos, Ha.
Qed.

Lemma py_max0_nonneg (x : float64) : 0 <= py_max0 x.
Proof. destruct x; simpl; [lra | apply Rmax_l]. Qed.

End NumpyFacts.

(** ** The confidence-interval estimator *)

Section EstimatorFacts.
Context `{Collaborators}.
Import MonteCarlo.
Local Open Scope R_scope.

Lemma sqrt_len_pos (a : ndarray) : a <> [] -> 0 < sqrt (len a).
Proof. intros Ha. apply sqrt_lt_R0, len_pos, Ha. Qed.

(** The standard error of a non-empty array is a non-negative number. *)
Lemma std_error_fin (a : ndarray) :
  a <> [] ->
  exists s, np_std a = Fin s /\ 0 <= s /\
            fdiv (np_std a) (np_sqrt_len a) = Fin (s / sqrt (len a)) /\
            0 <= s / sqrt (len a) /\
            (0 < s -> 0 < s / sqrt (len a)).
Proof.
  intros Ha. pose proof (sqrt_len_pos a Ha) as Hq.
  rewrite (np_std_fin a Ha).
  set (s := sqrt (sq_dev (total a / len a) a / len a)).
  assert (0 <= s) as Hs by apply sqrt_pos.
  exists s. split; [reflexivity |]. split; [exact Hs |].
  split.
  - unfold np_sqrt_len, fdiv.
    destruct (Req_dec_T (sqrt (len a)) 0) as [E|_]; [lra | reflexivity].
  - split.
    + apply Rmult_le_pos; [exact Hs |]. left. apply Rinv_0_lt_compat, Hq.
    + intros Hpos. apply Rmult_lt_0_compat; [exact Hpos |].
      apply Rinv_0_lt_compat, Hq.
Qed.

(** C8 (the code departs from the claim).  On an empty array, called as the
    repository's own test calls it (confidence level by keyword),
    [calculate_confidence_interval] raises nothing: no statement of its
    [try] block fails on an empty array, so the [except] clause with code
    3014 is not reached and the pair (NaN, NaN) is returned. *)
Theorem empty_outcomes_return_nan_interval (c : R) :
  calculate_confidence_interval [] (Keyword c) = Ok (NaN, NaN).
Proof.
  unfold calculate_confidence_interval, validate_input,
    confidence_interval_body.
  simpl. reflexivity.
Qed.

(** The same holds when the level is left to its default. *)
Lemma empty_outcomes_default_level :
  calculate_confidence_interval [] Omitted = Ok (NaN, NaN).
Proof. reflexivity. Qed.

(** C4, amended.  The standard deviation that the engine reports for a
    non-empty outcome array is numpy's default, the population standard
    deviation: its square times n is the sum of squared deviations.  It is
    0 for a single outcome, and for n > 1 it is the sample standard
    deviation of the specification scaled by sqrt((n-1)/n). *)
Theorem standard_deviation_is_population_std
    (a : ndarray) (lo hi : float64) (n : Z) (now : string) :
  (1 <= length a)%nat ->
  exists s,
    standard_deviation (build_result (np_mean a) (np_std a) lo hi n now)
      = Fin s /\
    s * s * len a = sq_dev (total a / len a) a /\
    (length a = 1%nat -> s = 0) /\
    ((1 < length a)%nat ->
     exists t, Spec.sample_std a = Fin t /\
               s = sqrt ((len a - 1) / len a) * t).
Proof.
  intros Hlen.
  assert (a <> []) as Ha by (destruct a; [simpl in Hlen; lia | congruence]).
  pose proof (len_pos a Ha) as Hn.
  pose proof (sq_dev_nonneg (total a / len a) a) as HD.
  set (D := sq_dev (total a / len a) a) in *.
  exists (sqrt (D / len a)).
  split; [cbn; rewrite (np_std_fin a Ha); reflexivity |].
  assert (0 <= D / len a) as Hv.
  { apply Rmult_le_pos; [exact HD |]. left. apply Rinv_0_lt_compat, Hn. }
  split.
  { rewrite sqrt_sqrt by exact Hv. field. lra. }
  split.
  - intros H1. destruct a as [|x [|y a]]; simpl in H1; try lia.
    subst D. unfold sq_dev, total, len. simpl.
    replace ((x - (x + 0) / 1) * (x - (x + 0) / 1) + 0) with 0 by (field).
    replace (0 / 1) with 0 by field. apply sqrt_0.
  - intros H2.
    assert (1 < len a) as Hn1.
    { unfold len. change 1 with (INR 1). apply lt_INR. exact H2. }
    exists (sqrt (D / (len a - 1))).
    split.
    + destruct a as [|x [|y a]]; simpl in H2; try lia. reflexivity.
    + rewrite <- sqrt_mult_alt.
      * f_equal. field. lra.
      * apply Rmult_le_pos; [lra |]. left. apply Rinv_0_lt_compat, Hn.
Qed.

End EstimatorFacts.

(** ** The sampling engine and the trial executor *)

Section SamplingFacts.
Context `{Collaborators}.
Import MonteCarlo.
Local Open Scope R_scope.

Local Abbreviation nonneg := (Forall (fun x : R => 0 <= x)).

(** The scale handed to the generator is never negative, so a draw for a
    player never raises. *)
Lemma rng_normal_player (g : bitgen) (player : ndarray) :
  exists points g',
    rng_normal g (np_mean player) (np_std player) = Ok (points, g').
Proof.
  unfold rng_normal.
  destruct (np_std player) as [|s] eqn:Hstd.
  - destruct (standard_normal g) as [z g']. eauto.
  - apply np_std_nonneg in Hstd.
    destruct (Rlt_dec s 0) as [Hneg|_]; [lra |].
    destruct (standard_normal g) as [z g']. eauto.
Qed.

Lemma sample_players_ok (player_data : list ndarray) :
  forall g, exists player_points g',
    sample_players g player_data = Ok (player_points, g') /\
    length player_points = length player_data /\
    nonneg player_points.
Proof.
  induction player_data as [|player rest IH]; intros g.
  - exists [], g. repeat split. constructor.
  - destruct (rng_normal_player g player) as (points & g1 & Hdraw).
    destruct (IH g1) as (more & g2 & Hrest & Hlen & Hpos).
    exists (py_max0 points :: more), g2.
    cbn [sample_players]. rewrite Hdraw. cbn. rewrite Hrest. cbn.
    repeat split.
    + f_equal. exact Hlen.
    + constructor; [apply py_max0_nonneg | exact Hpos].
Qed.

Lemma run_trials_ok (player_data : list ndarray) (k : nat) :
  forall g, exists results g',
    run_trials k g player_data = Ok (results, g') /\
    length results = k /\
    nonneg results.
Proof.
  induction k as [|k IH]; intros g.
  - exists [], g. repeat split. constructor.
  - destruct (sample_players_ok player_data g) as (pp & g1 & Hpp & _ & Hpos).
    destruct (IH g1) as (results & g2 & Hrest & Hlen & Hall).
    exists (total pp :: results), g2.
    cbn [run_trials]. rewrite Hpp. cbn. rewrite Hrest. cbn.
    repeat split.
    + f_equal. exact Hlen.
    + constructor; [apply total_nonneg, Hpos | exact Hall].
Qed.

(** A chunk of a non-negative size is sampled in full. *)
Lemma simulate_single_lineup_ok (self : MonteCarloSimulator)
    (player_data : list ndarray) (n : Z) :
  (0 <= n)%Z ->
  exists results,
    _simulate_single_lineup self player_data n = Ok results /\
    length results = Z.to_nat n /\
    nonneg results.
Proof.
  intros Hn. unfold _simulate_single_lineup.
  destruct (Z.ltb_spec n 0) as [Hneg|_]; [lia |].
  destruct (run_trials_ok player_data (Z.to_nat n) (_rng self))
    as (results & g' & Hrun & Hlen & Hpos).
  exists results. rewrite Hrun. cbn. auto.
Qed.

(** A chunk of a negative size raises, code 3013. *)
Lemma simulate_single_lineup_negative (self : MonteCarloSimulator)
    (player_data : list ndarray) (n : Z) :
  (n < 0)%Z ->
  _simulate_single_lineup self player_data n = Err (SimulationError 3013).
Proof.
  intros Hn. unfold _simulate_single_lineup.
  destruct (Z.ltb_spec n 0) as [_|Hge]; [reflexivity | lia].
Qed.

Lemma simulate_single_lineup_nonneg (self : MonteCarloSimulator)
    (player_data : list ndarray) (n : Z) (results : ndarray) :
  _simulate_single_lineup self player_data n = Ok results ->
  nonneg results.
Proof.
  intros Hrun. destruct (Z.lt_ge_cases n 0) as [Hneg|Hge].
  - rewrite simulate_single_lineup_negative in Hrun by exact Hneg.
    discriminate.
  - destruct (simulate_single_lineup_ok self player_data n Hge)
      as (results' & Hrun' & _ & Hpos).
    congruence.
Qed.

(** The chunk list of lines 125-126: MAX_PARALLEL_PROCESSES chunks of the
    truncated quotient, which together hold n minus the remainder. *)
Lemma trials_scheduled_replicate (k : nat) (c : Z) :
  trials_scheduled (replicate k c) = (Z.of_nat k * c)%Z.
Proof. induction k as [|k IH]; cbn [replicate trials_scheduled foldr];
         [lia | fold (trials_scheduled (replicate k c)); rewrite IH; lia]. Qed.

Lemma simulation_chunks_total (n : Z) :
  (1 <= cpu_count)%Z ->
  trials_scheduled (simulation_chunks n)
    = (n - n mod MAX_PARALLEL_PROCESSES)%Z.
Proof.
  intros Hcpu. unfold simulation_chunks.
  rewrite trials_scheduled_replicate.
  assert (1 <= MAX_PARALLEL_PROCESSES)%Z by (unfold MAX_PARALLEL_PROCESSES; lia).
  rewrite Z2Nat.id by lia.
  pose proof (Z.div_mod n MAX_PARALLEL_PROCESSES). lia.
Qed.

(** The executor raises as soon as it is handed a chunk. *)
Lemma parallel_simulate_raises (self : MonteCarloSimulator)
    (player_data : list ndarray) (n : Z) :
  (1 <= cpu_count)%Z ->
  _parallel_simulate self
    (map (fun chunk => (player_data, chunk)) (simulation_chunks n))
  = Err (SimulationError 3012).
Proof.
  intros Hcpu. unfold simulation_chunks.
  assert (1 <= MAX_PARALLEL_PROCESSES)%Z as Hmax
    by (unfold MAX_PARALLEL_PROCESSES; lia).
  destruct (Z.to_nat MAX_PARALLEL_PROCESSES) as [|k] eqn:Hk; [lia |].
  reflexivity.
Qed.

(** The sampling stage of a call whose players are all preprocessed ends in
    the executor, with code 3012. *)
Lemma sample_lineup_raises (self : MonteCarloSimulator)
    (player_ids : list string) (player_data : list ndarray) (n : Z) :
  (1 <= cpu_count)%Z ->
  for_each preprocess_player_data player_ids = Ok player_data ->
  sample_lineup self player_ids n = Err (SimulationError 3012).
Proof.
  intros Hcpu Hprep. unfold sample_lineup. rewrite Hprep.
  change ((simulation_results ←
             _parallel_simulate self
               (map (fun chunk => (player_data, chunk))
                    (simulation_chunks n));
           np_concatenate simulation_results)
          = Err (SimulationError 3012)).
  rewrite parallel_simulate_raises by exact Hcpu. reflexivity.
Qed.

End SamplingFacts.

Section EngineClaims.
Context `{Collaborators}.
Import MonteCarlo.
Local Open Scope R_scope.

(** The aggregation step passes the confidence level positionally, so the
    decorator finds a float at [args[1]] and raises code 3010. *)
Lemma aggregate_raises (combined : ndarray) (n : Z) (now : string) :
  aggregate combined n now = Err (SimulationError 3010).
Proof. reflexivity. Qed.

(** Hence a call that gets past the cache check raises code 3011 and
    writes nothing to the cache. *)
Lemma fresh_call_raises (self self1 : MonteCarloSimulator)
    (player_ids : list string) (n : Z) (force_refresh : bool)
    (now : string) (srv srv1 : Redis.server) :
  cache_check self (lineup_cache_key player_ids) force_refresh srv
    = (Ok None, self1, srv1) ->
  simulate_lineup_performance self player_ids n force_refresh now srv
    = (Err (SimulationError 3011), self1, srv1).
Proof.
  intros Hcheck. unfold simulate_lineup_performance. rewrite Hcheck.
  destruct (sample_lineup self1 player_ids n) as [combined|e].
  - change (combined_results ← Ok combined;
            aggregate combined_results n now)
      with (aggregate combined n now).
    rewrite aggregate_raises. reflexivity.
  - reflexivity.
Qed.

Lemma redis_get_cases (svc : Redis.RedisService) (key : string)
    (srv : Redis.server) :
  (exists found, outcome (Redis.get svc key srv) = Ok found) \/
  outcome (Redis.get svc key srv)
    = Err (IntegrationError INTEGRATION_DEFAULT_CODE).
Proof.
  unfold Redis.get, Redis.client_get, Redis.command.
  destruct (Redis._healthy svc); cbn; [| right; reflexivity].
  destruct (Redis.outages srv) as [|[|] rest]; cbn; eauto.
Qed.

(** What a caller of the facade can observe. *)
Lemma facade_outcomes (self : MonteCarloSimulator)
    (player_ids : list string) (n : Z) (force_refresh : bool)
    (now : string) (srv : Redis.server) :
  let r := outcome (simulate_lineup_performance self player_ids n
                      force_refresh now srv) in
  (exists d, r = Ok d) \/
  r = Err (IntegrationError INTEGRATION_DEFAULT_CODE) \/
  r = Err (SimulationError 3011).
Proof.
  cbv zeta.
  destruct (cache_check self (lineup_cache_key player_ids) force_refresh srv)
    as [[looked self1] srv1] eqn:Hcheck.
  destruct looked as [[d|]|e].
  - left. exists d. unfold simulate_lineup_performance.
    rewrite Hcheck. reflexivity.
  - right. right. erewrite fresh_call_raises by exact Hcheck. reflexivity.
  - right. left. unfold simulate_lineup_performance. rewrite Hcheck.
    unfold outcome. cbn.
    unfold cache_check in Hcheck.
    destruct (_cache_enabled self && negb force_refresh); [| congruence].
    destruct (redis_get_cases (_redis_service self)
                (lineup_cache_key player_ids) srv) as [[found Hok]|Hfail];
      destruct (Redis.get _ _ srv) as [[r svc] srv'];
      unfold outcome in *; cbn in *; congruence.
Qed.

Lemma run_trials_empty_lineup (k : nat) (g : bitgen) :
  run_trials k g [] = Ok (replicate k 0, g).
Proof.
  induction k as [|k IH]; cbn; [reflexivity |].
  rewrite IH. reflexivity.
Qed.

(** C3, amended.  The facade does not validate [player_ids]: for the empty
    list it never raises ValidationError, for every trial count, cache
    state and refresh flag; the sampling step accepts the empty lineup and
    gives each of its trials the outcome 0. *)
Theorem empty_lineup_is_not_validated (self : MonteCarloSimulator)
    (n : Z) (force_refresh : bool) (now : string) (srv : Redis.server)
    (code : Z) (k : nat) :
  outcome (simulate_lineup_performance self [] n force_refresh now srv)
    <> Err (ValidationError code) /\
  _simulate_single_lineup self [] (Z.of_nat k) = Ok (replicate k 0).
Proof.
  split.
  - destruct (facade_outcomes self [] n force_refresh now srv)
      as [[d Hd]|[Hi|Hs]]; cbv zeta in *; congruence.
  - unfold _simulate_single_lineup.
    destruct (Z.ltb_spec (Z.of_nat k) 0) as [Hneg|_]; [lia |].
    rewrite Nat2Z.id, run_trials_empty_lineup. reflexivity.
Qed.

(** C5 (the code departs from the claim).  Two calls on simulators built
    with the same seed, with the cache bypassed, return no statistics to
    compare: each raises SimulationError 3011, whatever the seed, the
    lineup and the trial count, and leaves simulator and server as they
    were; so does the call on any simulator object. *)
Theorem seeded_calls_return_no_statistics (seed entropy1 entropy2 : Z)
    (cache1 cache2 : bool) (player_ids : list string) (n : Z)
    (now1 now2 : string) (srv1 srv2 : Redis.server) :
  let run1 := init (Some seed) entropy1 cache1 in
  let run2 := init (Some seed) entropy2 cache2 in
  simulate_lineup_performance run1 player_ids n true now1 srv1
    = (Err (SimulationError 3011), run1, srv1) /\
  simulate_lineup_performance run2 player_ids n true now2 srv2
    = (Err (SimulationError 3011), run2, srv2) /\
  stats (outcome (simulate_lineup_performance run1 player_ids n true
                    now1 srv1)) = Err (SimulationError 3011) /\
  stats (outcome (simulate_lineup_performance run2 player_ids n true
                    now2 srv2)) = Err (SimulationError 3011) /\
  forall (self : MonteCarloSimulator) now srv,
    simulate_lineup_performance self player_ids n true now srv
    = (Err (SimulationError 3011), self, srv).
Proof.
  intros run1 run2.
  assert (forall (run : MonteCarloSimulator) now srv,
             simulate_lineup_performance run player_ids n true now srv
             = (Err (SimulationError 3011), run, srv)) as Hraise.
  { intros run now srv. apply fresh_call_raises. unfold cache_check.
    rewrite andb_false_r. reflexivity. }
  rewrite !Hraise. repeat split. exact Hraise.
Qed.

(** C7, amended.  A failure of the cache read is not treated as a miss:
    the exception that RedisService.get raises during the cache check is
    raised to the caller of the facade, nothing is sampled and no result
    is returned.  RedisService.set, too, raises IntegrationError when the
    command fails. *)
Theorem cache_get_failure_reaches_caller (self : MonteCarloSimulator)
    (player_ids : list string) (n : Z) (now : string)
    (srv srv' : Redis.server) (svc' : Redis.RedisService) (e : exn) :
  _cache_enabled self = true ->
  Redis.get (_redis_service self) (lineup_cache_key player_ids) srv
    = (Err e, svc', srv') ->
  simulate_lineup_performance self player_ids n false now srv
    = (Err e, with_service self svc', srv') /\
  forall key value ttl rest entries,
    outcome (Redis.set Redis.RedisService_init key value ttl
               {| Redis.outages := true :: rest; Redis.db := entries |})
    = Err (IntegrationError INTEGRATION_DEFAULT_CODE).
Proof.
  intros Hon Hget. split.
  - unfold simulate_lineup_performance, cache_check.
    rewrite Hon, Hget. reflexivity.
  - intros. reflexivity.
Qed.

End EngineClaims.

(** ** Cache keys and the cached flag *)

Section CacheClaims.
Context `{Collaborators}.
Import MonteCarlo SimulationTasks.

(** The simulator's generator is not advanced by a call: no trial is
    sampled in the calling process. *)
Lemma facade_keeps_generator (self : MonteCarloSimulator)
    (player_ids : list string) (n : Z) (force_refresh : bool)
    (now : string) (srv : Redis.server) :
  _rng (simulate_lineup_performance self player_ids n force_refresh
          now srv).1.2 = _rng self.
Proof.
  destruct (cache_check self (lineup_cache_key player_ids) force_refresh srv)
    as [[looked self1] srv1] eqn:Hcheck.
  assert (_rng self1 = _rng self) as Hrng.
  { unfold cache_check in Hcheck.
    destruct (_cache_enabled self && negb force_refresh).
    - destruct (Redis.get _ _ srv) as [[r svc] srv'].
      injection Hcheck as _ <- _. reflexivity.
    - injection Hcheck as _ <- _. reflexivity. }
  destruct looked as [[d|]|e].
  - unfold simulate_lineup_performance. rewrite Hcheck. exact Hrng.
  - erewrite fresh_call_raises by exact Hcheck. exact Hrng.
  - unfold simulate_lineup_performance. rewrite Hcheck. exact Hrng.
Qed.

(** The task's key does not depend on the order of the player ids. *)
Lemma sorted_permutation (l1 l2 : list string) :
  l1 ≡ₚ l2 -> sorted l1 = sorted l2.
Proof.
  intros Hperm. unfold sorted.
  apply (Sorted_unique String.le).
  - apply Sorted_merge_sort; apply _.
  - apply Sorted_merge_sort; apply _.
  - rewrite !merge_sort_Permutation. exact Hperm.
Qed.

Lemma generate_cache_key_permutation (prefix : string)
    (l1 l2 : list string) :
  l1 ≡ₚ l2 -> generate_cache_key prefix l1 = generate_cache_key prefix l2.
Proof.
  intros Hperm. unfold generate_cache_key.
  rewrite (sorted_permutation l1 l2 Hperm). reflexivity.
Qed.

(** C10, amended.  When the cache holds an entry under the key of the call
    (cache enabled, backend answering, no forced refresh), the facade
    returns that entry as stored, so with the expected_points it was
    stored with, and adds no cached field.  The flag belongs to
    simulate_lineup_task: true on the entry its own lookup finds, false on
    a result it obtained from the simulator and stored. *)
Theorem cached_flag_is_set_by_the_task (self : MonteCarloSimulator)
    (player_ids : list string) (n : Z) (now : string)
    (srv srv' : Redis.server) (svc' : Redis.RedisService)
    (d : SimulationResult) :
  _cache_enabled self = true ->
  Redis.get (_redis_service self) (lineup_cache_key player_ids) srv
    = (Ok (Some d), svc', srv') ->
  simulate_lineup_performance self player_ids n false now srv
    = (Ok d, with_service self svc', srv') /\
  (forall entropy now_sim tsvc tsrv tsrv' entry,
      Redis.get Redis.RedisService_init
        (generate_cache_key "lineup" player_ids) tsrv
        = (Ok (Some entry), tsvc, tsrv') ->
      simulate_lineup_task player_ids n false entropy now_sim now tsrv
        = (Ok (mark entry true now), tsrv')) /\
  (forall entropy now_sim tsvc tsvc' tsrv tsrv1 tsrv2 tsrv3 sim' res ok,
      Redis.get Redis.RedisService_init
        (generate_cache_key "lineup" player_ids) tsrv
        = (Ok None, tsvc, tsrv1) ->
      simulate_lineup_performance
        (init (Some SIMULATION_RANDOM_SEED) entropy CACHE_ENABLED)
        player_ids n false now_sim tsrv1 = (Ok res, sim', tsrv2) ->
      Redis.set tsvc (generate_cache_key "lineup" player_ids) res
        CACHE_TTL_SECONDS tsrv2 = (Ok ok, tsvc', tsrv3) ->
      simulate_lineup_task player_ids n false entropy now_sim now tsrv
        = (Ok (mark res false now), tsrv3)).
Proof.
  intros Hon Hget. split; [| split].
  - unfold simulate_lineup_performance, cache_check.
    rewrite Hon, Hget. reflexivity.
  - intros * Hhit. unfold simulate_lineup_task.
    cbn [negb]. rewrite Hhit. reflexivity.
  - intros * Hmiss Hsim Hset. unfold simulate_lineup_task.
    cbn [negb]. rewrite Hmiss, Hsim, Hset. reflexivity.
Qed.

End CacheClaims.

(** ** The claims on concrete inputs *)

Section Concrete.
Import MonteCarlo SimulationTasks.
Local Existing Instance Demo.collaborators.
Local Open Scope R_scope.

(** C1 (the code departs from the claim).  On a host with four CPUs a
    request for 10 trials is cut into four chunks of 2: the remainder is
    given to no chunk and the chunks hold 8 trials; for every n they hold n
    minus the remainder of n by 4.  The dict of lines 145-155 carries the
    requested count, whatever was sampled.  These chunks are what the call
    hands to the executor, which raises: the call returns no result, and so
    no simulations_run, whatever the simulator and the server. *)
Theorem remainder_trials_are_dropped :
  simulation_chunks 10 = [2; 2; 2; 2]%Z /\
  trials_scheduled (simulation_chunks 10) = 8%Z /\
  (forall n, trials_scheduled (simulation_chunks n) = (n - n mod 4)%Z) /\
  (forall mean_points std_points ci_lower ci_upper n now,
      simulations_run
        (build_result mean_points std_points ci_lower ci_upper n now) = n) /\
  forall self now srv,
    sample_lineup self ["p1"] 10 = Err (SimulationError 3012) /\
    simulate_lineup_performance self ["p1"] 10 true now srv
      = (Err (SimulationError 3011), self, srv).
Proof.
  split; [reflexivity |]. split; [reflexivity |]. split; [| split].
  - intros n. rewrite simulation_chunks_total by (cbn; lia). reflexivity.
  - reflexivity.
  - intros self now srv. split.
    + apply (sample_lineup_raises self ["p1"] [[10; 20]]);
        [cbn; lia | reflexivity].
    + apply fresh_call_raises. unfold cache_check.
      rewrite andb_false_r. reflexivity.
Qed.


(** C6 (the code departs from the claim).  The facade joins the player ids
    in the order given: two orders of the same lineup get two keys, and a
    call for ["b"; "a"] does not find the entry stored for ["a"; "b"].  The
    key of the worker task, which sorts first, is the same for both. *)
Theorem facade_cache_key_depends_on_order :
  lineup_cache_key ["a"; "b"] = "monte_carlo_sim:lineup:a_b" /\
  lineup_cache_key ["b"; "a"] = "monte_carlo_sim:lineup:b_a" /\
  lineup_cache_key ["a"; "b"] <> lineup_cache_key ["b"; "a"] /\
  outcome (simulate_lineup_performance Demo.simulator ["a"; "b"] 8 false
             "2024-01-01T00:00:01" Demo.ab_server) = Ok Demo.stored /\
  outcome (simulate_lineup_performance Demo.simulator ["b"; "a"] 8 false
             "2024-01-01T00:00:01" Demo.ab_server)
    = Err (SimulationError 3011) /\
  forall C : Collaborators,
    @generate_cache_key C "lineup" ["a"; "b"]
    = @generate_cache_key C "lineup" ["b"; "a"].
Proof.
  assert (lineup_cache_key ["a"; "b"] <> lineup_cache_key ["b"; "a"])
    as Hne by (vm_compute; discriminate).
  split; [reflexivity |]. split; [reflexivity |]. split; [exact Hne |].
  split; [| split].
  - unfold simulate_lineup_performance, cache_check, Redis.get,
      Redis.client_get, Redis.command, Demo.ab_server.
    cbn. rewrite lookup_singleton_eq. reflexivity.
  - erewrite fresh_call_raises; [reflexivity |].
    unfold cache_check, Redis.get, Redis.client_get, Redis.command,
      Demo.ab_server.
    cbn. rewrite lookup_singleton_ne by exact Hne. reflexivity.
  - intros C. apply generate_cache_key_permutation. apply Permutation_swap.
Qed.

(** C3, counterexample.  With nothing cached, the call for the empty
    lineup raises SimulationError with code 3011, not ValidationError. *)
Lemma empty_lineup_raises_simulation_error :
  outcome (simulate_lineup_performance Demo.simulator [] 1000 false
             "2024-01-01T00:00:00" Demo.empty_server)
    = Err (SimulationError 3011) /\
  forall code,
    outcome (simulate_lineup_performance Demo.simulator [] 1000 false
               "2024-01-01T00:00:00" Demo.empty_server)
    <> Err (ValidationError code).
Proof.
  assert (simulate_lineup_performance Demo.simulator [] 1000 false
            "2024-01-01T00:00:00" Demo.empty_server
          = (Err (SimulationError 3011), Demo.simulator, Demo.empty_server))
    as Hrun by (apply fresh_call_raises; reflexivity).
  rewrite Hrun. split; [reflexivity | discriminate].
Qed.

(** C4, counterexample.  For the outcomes 0 and 2 the engine reports 1,
    the population standard deviation; the sample standard deviation is
    the square root of 2. *)
Lemma np_std_is_not_sample_std :
  np_std [0; 2] = Fin 1 /\
  Spec.sample_std [0; 2] = Fin (sqrt 2) /\
  np_std [0; 2] <> Spec.sample_std [0; 2].
Proof.
  assert (np_std [0; 2] = Fin 1) as Hpop.
  { unfold np_std, sq_dev, total, len. cbn. f_equal.
    match goal with |- sqrt ?v = 1 => replace v with 1 by field end.
    apply sqrt_1. }
  assert (Spec.sample_std [0; 2] = Fin (sqrt 2)) as Hsample.
  { unfold Spec.sample_std, sq_dev, total, len. cbn. f_equal.
    match goal with |- sqrt ?v = _ => replace v with 2 by field end.
    reflexivity. }
  split; [exact Hpop |]. split; [exact Hsample |].
  rewrite Hpop, Hsample. intros [= Heq].
  pose proof (sqrt_sqrt 2) as Hsq. rewrite <- Heq in Hsq. lra.
Qed.

(** C7, counterexample.  The first command to the server times out: the
    call raises IntegrationError to its caller instead of computing. *)
Lemma cache_outage_raises_integration_error :
  outcome (simulate_lineup_performance Demo.simulator ["p1"] 8 false
             "2024-01-01T00:00:00" Demo.failing_server)
    = Err (IntegrationError 6000).
Proof. reflexivity. Qed.

(** C10, counterexample.  Two calls with the same arguments, cache enabled
    and empty, server answering: the first raises code 3011 and leaves the
    cache empty, so the second raises as well.  And where the cache does
    hold an entry, the response is that entry, without a cached flag. *)
Lemma second_call_is_not_marked_cached :
  let first := simulate_lineup_performance Demo.simulator ["p1"] 8 false
                 "2024-01-01T00:00:00" Demo.empty_server in
  let second := simulate_lineup_performance first.1.2 ["p1"] 8 false
                  "2024-01-01T00:00:01" first.2 in
  outcome first = Err (SimulationError 3011) /\
  first.2 = Demo.empty_server /\
  outcome second = Err (SimulationError 3011) /\
  outcome (simulate_lineup_performance Demo.simulator ["p1"] 8 false
             "2024-01-01T00:00:01" Demo.warm_server) = Ok Demo.stored /\
  cached Demo.stored = None.
Proof.
  assert (forall now,
             simulate_lineup_performance Demo.simulator ["p1"] 8 false
               now Demo.empty_server
             = (Err (SimulationError 3011), Demo.simulator,
                Demo.empty_server))
    as Hrun by (intros now; apply fresh_call_raises; reflexivity).
  cbv zeta. rewrite (Hrun "2024-01-01T00:00:00"). cbn [fst snd].
  rewrite (Hrun "2024-01-01T00:00:01").
  repeat split; reflexivity.
Qed.

(** *** Instances of the theorems that carry hypotheses *)

(** C4 (amended) at the outcomes 0 and 2. *)
Lemma standard_deviation_is_population_std_witness :
  (1 <= length Demo.two_outcomes)%nat /\
  exists s,
    standard_deviation
      (build_result (np_mean Demo.two_outcomes) (np_std Demo.two_outcomes)
         NaN NaN 8 "2024-01-01T00:00:00") = Fin s /\
    s * s * len Demo.two_outcomes
    = sq_dev (total Demo.two_outcomes / len Demo.two_outcomes)
        Demo.two_outcomes /\
    (length Demo.two_outcomes = 1%nat -> s = 0) /\
    ((1 < length Demo.two_outcomes)%nat ->
     exists t, Spec.sample_std Demo.two_outcomes = Fin t /\
               s = sqrt ((len Demo.two_outcomes - 1)
                         / len Demo.two_outcomes) * t).
Proof.
  split; [simpl; lia |].
  apply (standard_deviation_is_population_std Demo.two_outcomes).
  simpl. lia.
Defined.

(** C7 (amended) on a server whose first command times out. *)
Lemma cache_get_failure_reaches_caller_witness :
  _cache_enabled Demo.simulator = true /\
  Redis.get (_redis_service Demo.simulator) (lineup_cache_key ["p1"])
    Demo.failing_server
    = (Err (IntegrationError 6000), {| Redis._healthy := false |},
       Demo.empty_server) /\
  simulate_lineup_performance Demo.simulator ["p1"] 8 false
    "2024-01-01T00:00:00" Demo.failing_server
    = (Err (IntegrationError 6000),
       with_service Demo.simulator {| Redis._healthy := false |},
       Demo.empty_server).
Proof.
  split; [reflexivity |]. split; [reflexivity |].
  apply (cache_get_failure_reaches_caller Demo.simulator ["p1"] 8
           "2024-01-01T00:00:00" Demo.failing_server Demo.empty_server
           {| Redis._healthy := false |} (IntegrationError 6000));
    reflexivity.
Defined.

(** C10 (amended) on servers that hold an entry under the facade's key and
    under the task's key. *)
Lemma cached_flag_is_set_by_the_task_witness :
  _cache_enabled Demo.simulator = true /\
  Redis.get (_redis_service Demo.simulator) (lineup_cache_key ["p1"])
    Demo.warm_server
    = (Ok (Some Demo.stored), Redis.RedisService_init, Demo.warm_server) /\
  simulate_lineup_performance Demo.simulator ["p1"] 8 false
    "2024-01-01T00:00:01" Demo.warm_server
    = (Ok Demo.stored, Demo.simulator, Demo.warm_server) /\
  simulate_lineup_task ["p1"] 8 false 0 "2024-01-01T00:00:00"
    "2024-01-01T00:00:01" Demo.task_warm_server
    = (Ok (mark Demo.stored true "2024-01-01T00:00:01"),
       Demo.task_warm_server) /\
  cached (mark Demo.stored true "2024-01-01T00:00:01") = Some true /\
  simulate_lineup_task ["p1"] 8 false 0 "2024-01-01T00:00:00"
    "2024-01-01T00:00:01" Demo.warm_server
    = (Ok (mark Demo.stored false "2024-01-01T00:00:01"),
       {| Redis.outages := [];
          Redis.db := <[generate_cache_key "lineup" ["p1"] := Demo.stored]>
                        (Redis.db Demo.warm_server) |}) /\
  cached (mark Demo.stored false "2024-01-01T00:00:01") = Some false.
Proof.
  assert (Redis.get (_redis_service Demo.simulator) (lineup_cache_key ["p1"])
            Demo.warm_server
          = (Ok (Some Demo.stored), Redis.RedisService_init,
             Demo.warm_server)) as Hhit.
  { unfold Redis.get, Redis.client_get, Redis.command, Demo.warm_server.
    cbn. rewrite lookup_singleton_eq. reflexivity. }
  assert (Redis.get Redis.RedisService_init
            (generate_cache_key "lineup" ["p1"]) Demo.task_warm_server
          = (Ok (Some Demo.stored), Redis.RedisService_init,
             Demo.task_warm_server)) as Htask.
  { unfold Redis.get, Redis.client_get, Redis.command,
      Demo.task_warm_server.
    cbn. rewrite lookup_singleton_eq. reflexivity. }
  assert (Redis.get Redis.RedisService_init
            (generate_cache_key "lineup" ["p1"]) Demo.warm_server
          = (Ok None, Redis.RedisService_init, Demo.warm_server)) as Hmiss.
  { unfold Redis.get, Redis.client_get, Redis.command, Demo.warm_server.
    cbn. rewrite lookup_singleton_ne by (vm_compute; discriminate).
    reflexivity. }
  destruct (cached_flag_is_set_by_the_task Demo.simulator ["p1"] 8
              "2024-01-01T00:00:01" Demo.warm_server Demo.warm_server
              Redis.RedisService_init Demo.stored eq_refl Hhit)
    as (Hfacade & Hmarked & Hfresh).
  split; [reflexivity |]. split; [exact Hhit |].
  split; [exact Hfacade |].
  split; [exact (Hmarked 0%Z "2024-01-01T00:00:00" _ _ _ _ Htask) |].
  split; [reflexivity |].
  split; [| reflexivity].
  eapply (Hfresh 0%Z "2024-01-01T00:00:00").
  - exact Hmiss.
  - exact Hfacade.
  - reflexivity.
Defined.

End Concrete.

(** * Further properties of the embedded code *)

(** ** RedisService: writes, reads and the health flag *)

Section RedisFacts.

Lemma command_keeps_db (srv : Redis.server) :
  Redis.db (Redis.command srv).2 = Redis.db srv.
Proof.
  unfold Redis.command. destruct (Redis.outages srv) as [|[|] rest]; reflexivity.
Qed.

Lemma command_cases (srv : Redis.server) :
  (Redis.command srv).1 = Ok () \/ (Redis.command srv).1 = Err RedisError.
Proof.
  unfold Redis.command. destruct (Redis.outages srv) as [|[|] rest]; auto.
Qed.

Lemma get_keeps_db (svc : Redis.RedisService) (key : string)
    (srv : Redis.server) :
  Redis.db (Redis.get svc key srv).2 = Redis.db srv.
Proof.
  unfold Redis.get, Redis.client_get.
  destruct (Redis._healthy svc); cbn; [| reflexivity].
  pose proof (command_keeps_db srv) as Hdb.
  destruct (Redis.command srv) as [[[]|e] srv']; exact Hdb.
Qed.

(** A healthy service reads what the server holds when the command gets
    through. *)
Lemma get_reads_db (svc : Redis.RedisService) (key : string)
    (srv : Redis.server) :
  Redis._healthy svc = true ->
  (Redis.command srv).1 = Ok () ->
  Redis.get svc key srv = (Ok (Redis.db srv !! key), svc, (Redis.command srv).2).
Proof.
  intros Hh Hcmd. unfold Redis.get, Redis.client_get. rewrite Hh. cbn.
  pose proof (command_keeps_db srv) as Hdb.
  destruct (Redis.command srv) as [[[]|e] srv']; cbn in *; [| discriminate].
  rewrite Hdb. reflexivity.
Qed.

(** An unhealthy service refuses every operation without sending a
    command. *)
Lemma unhealthy_fails_fast (svc : Redis.RedisService) :
  Redis._healthy svc = false ->
  forall key value ttl srv,
    Redis.get svc key srv
      = (Err (IntegrationError INTEGRATION_DEFAULT_CODE), svc, srv) /\
    Redis.set svc key value ttl srv
      = (Err (IntegrationError INTEGRATION_DEFAULT_CODE), svc, srv) /\
    Redis.delete svc key srv
      = (Err (IntegrationError INTEGRATION_DEFAULT_CODE), svc, srv).
Proof.
  intros Hh key value ttl srv.
  unfold Redis.get, Redis.set, Redis.delete. rewrite Hh. auto.
Qed.

(** X1.  A [set] that returns has stored the value under the key and changed
    no other key, returns True and leaves the service as it was; a [get] of
    the same key whose command reaches the server then returns that
    value. *)
Theorem redis_set_then_get (svc svc1 : Redis.RedisService) (key : string)
    (value : SimulationResult) (ttl : Z) (srv srv1 : Redis.server)
    (ok : bool) :
  Redis.set svc key value ttl srv = (Ok ok, svc1, srv1) ->
  ok = true /\ svc1 = svc /\
  Redis.db srv1 = <[key := value]> (Redis.db srv) /\
  ((Redis.command srv1).1 = Ok () ->
   outcome (Redis.get svc1 key srv1) = Ok (Some value)).
Proof.
  unfold Redis.set, Redis.client_setex. intros Hset.
  destruct (Redis._healthy svc) eqn:Hh; cbn in Hset; [| discriminate].
  pose proof (command_keeps_db srv) as Hdb.
  destruct (Redis.command srv) as [[[]|e] srv']; cbn in *; [| discriminate].
  injection Hset as <- <- <-. cbn. rewrite Hdb.
  repeat split.
  intros Hcmd. rewrite get_reads_db by assumption.
  unfold outcome. cbn. rewrite lookup_insert_eq. reflexivity.
Qed.

(** X2.  A [delete] that returns has removed the key and no other; a [get]
    of that key whose command reaches the server then reports a miss. *)
Theorem redis_delete_then_get (svc svc1 : Redis.RedisService) (key : string)
    (srv srv1 : Redis.server) (ok : bool) :
  Redis.delete svc key srv = (Ok ok, svc1, srv1) ->
  ok = true /\ svc1 = svc /\
  Redis.db srv1 = base.delete key (Redis.db srv) /\
  ((Redis.command srv1).1 = Ok () ->
   outcome (Redis.get svc1 key srv1) = Ok None).
Proof.
  unfold Redis.delete, Redis.client_delete. intros Hdel.
  destruct (Redis._healthy svc) eqn:Hh; cbn in Hdel; [| discriminate].
  pose proof (command_keeps_db srv) as Hdb.
  destruct (Redis.command srv) as [[[]|e] srv']; cbn in *; [| discriminate].
  injection Hdel as <- <- <-. cbn. rewrite Hdb.
  repeat split.
  intros Hcmd. rewrite get_reads_db by assumption.
  unfold outcome. cbn. rewrite lookup_delete_eq. reflexivity.
Qed.

(** X3.  A [get] that raises raises IntegrationError with the default code
    6000, has not changed the keys of the server, and leaves the service
    unhealthy for good: every later get, set or delete on it raises the same
    error without sending a command. *)
Theorem redis_get_failure_latches (svc svc' : Redis.RedisService)
    (key : string) (srv srv' : Redis.server) (e : exn) :
  Redis.get svc key srv = (Err e, svc', srv') ->
  e = IntegrationError 6000 /\
  Redis.db srv' = Redis.db srv /\
  forall key2 value ttl srv2,
    Redis.get svc' key2 srv2 = (Err (IntegrationError 6000), svc', srv2) /\
    Redis.set svc' key2 value ttl srv2
      = (Err (IntegrationError 6000), svc', srv2) /\
    Redis.delete svc' key2 srv2 = (Err (IntegrationError 6000), svc', srv2).
Proof.
  intros Hget.
  pose proof (get_keeps_db svc key srv) as Hdb. rewrite Hget in Hdb.
  assert (e = IntegrationError 6000 /\ Redis._healthy svc' = false)
    as [-> Hh].
  { unfold Redis.get, Redis.client_get in Hget.
    destruct (Redis._healthy svc) eqn:Hh; cbn in Hget.
    - destruct (Redis.command srv) as [[[]|e0] srv0]; cbn in Hget;
        [discriminate |].
      injection Hget as <- <- <-. auto.
    - injection Hget as <- <- <-. auto. }
  split; [reflexivity |]. split; [exact Hdb |].
  intros. apply unhealthy_fails_fast. exact Hh.
Qed.

(** X4.  A [set] or a [delete] that raises raises IntegrationError 6000, has
    written nothing, and leaves the service unhealthy: the next get raises
    without sending a command. *)
Theorem redis_failed_write_changes_nothing (svc svc' : Redis.RedisService)
    (key : string) (value : SimulationResult) (ttl : Z)
    (srv srv' : Redis.server) (e : exn) :
  Redis.set svc key value ttl srv = (Err e, svc', srv') \/
  Redis.delete svc key srv = (Err e, svc', srv') ->
  e = IntegrationError 6000 /\
  Redis.db srv' = Redis.db srv /\
  forall key2 srv2,
    Redis.get svc' key2 srv2 = (Err (IntegrationError 6000), svc', srv2).
Proof.
  pose proof (command_keeps_db srv) as Hdb.
  assert (forall key2 srv2,
             Redis._healthy svc' = false ->
             Redis.get svc' key2 srv2
             = (Err (IntegrationError 6000), svc', srv2)) as Hfast.
  { intros key2 srv2 Hh. unfold Redis.get. rewrite Hh. reflexivity. }
  intros [Hfail|Hfail].
  - unfold Redis.set, Redis.client_setex in Hfail.
    destruct (Redis._healthy svc) eqn:Hh; cbn in Hfail.
    + destruct (Redis.command srv) as [[[]|e0] srv0]; cbn in *;
        [discriminate |].
      injection Hfail as <- <- <-. auto.
    + injection Hfail as <- <- <-. auto.
  - unfold Redis.delete, Redis.client_delete in Hfail.
    destruct (Redis._healthy svc) eqn:Hh; cbn in Hfail.
    + destruct (Redis.command srv) as [[[]|e0] srv0]; cbn in *;
        [discriminate |].
      injection Hfail as <- <- <-. auto.
    + injection Hfail as <- <- <-. auto.
Qed.

End RedisFacts.

(** ** The facade as its callers see it *)

Section FacadeFacts.
Context `{Collaborators}.
Import MonteCarlo.

Lemma cache_check_keeps_db (self self1 : MonteCarloSimulator)
    (key : string) (force_refresh : bool) (srv srv1 : Redis.server)
    (looked : result (option SimulationResult)) :
  cache_check self key force_refresh srv = (looked, self1, srv1) ->
  Redis.db srv1 = Redis.db srv.
Proof.
  unfold cache_check. intros Hcheck.
  destruct (_cache_enabled self && negb force_refresh).
  - pose proof (get_keeps_db (_redis_service self) key srv) as Hdb.
    destruct (Redis.get _ key srv) as [[r svc] srv'].
    injection Hcheck as _ _ <-. exact Hdb.
  - injection Hcheck as _ _ <-. reflexivity.
Qed.

(** X5.  The facade returns a result exactly when its cache is enabled, no
    refresh is forced and the cache read finds an entry under the key of the
    lineup; the result is then that entry.  No call returns a result that it
    computed. *)
Theorem facade_returns_only_cache_hits (self : MonteCarloSimulator)
    (player_ids : list string) (n : Z) (force_refresh : bool)
    (now : string) (srv : Redis.server) (d : SimulationResult) :
  outcome (simulate_lineup_performance self player_ids n force_refresh
             now srv) = Ok d
  <->
  _cache_enabled self = true /\ force_refresh = false /\
  outcome (Redis.get (_redis_service self) (lineup_cache_key player_ids) srv)
    = Ok (Some d).
Proof.
  split.
  - intros Hout.
    destruct (cache_check self (lineup_cache_key player_ids) force_refresh srv)
      as [[looked self1] srv1] eqn:Hcheck.
    destruct looked as [[d'|]|e].
    + unfold simulate_lineup_performance in Hout. rewrite Hcheck in Hout.
      unfold outcome in Hout. cbn in Hout. injection Hout as ->.
      unfold cache_check in Hcheck.
      destruct (_cache_enabled self) eqn:Hon;
        destruct force_refresh eqn:Hforce; cbn in Hcheck;
        try discriminate.
      destruct (Redis.get _ _ srv) as [[r svc] srv'].
      injection Hcheck as -> _ _. auto.
    + erewrite fresh_call_raises in Hout by exact Hcheck. discriminate.
    + unfold simulate_lineup_performance in Hout. rewrite Hcheck in Hout.
      discriminate.
  - intros (Hon & -> & Hget).
    unfold simulate_lineup_performance, cache_check. rewrite Hon. cbn.
    destruct (Redis.get _ _ srv) as [[r svc] srv'].
    unfold outcome in *. cbn in *. subst r. reflexivity.
Qed.

(** X6.  No call of the facade changes the keys of the server: a hit only
    reads, and a call that gets past the cache check raises before the cache
    write of lines 158-163. *)
Theorem facade_never_writes (self : MonteCarloSimulator)
    (player_ids : list string) (n : Z) (force_refresh : bool)
    (now : string) (srv : Redis.server) :
  Redis.db (simulate_lineup_performance self player_ids n force_refresh
              now srv).2 = Redis.db srv.
Proof.
  destruct (cache_check self (lineup_cache_key player_ids) force_refresh srv)
    as [[looked self1] srv1] eqn:Hcheck.
  pose proof (cache_check_keeps_db _ _ _ _ _ _ _ Hcheck) as Hdb.
  destruct looked as [[d|]|e].
  - unfold simulate_lineup_performance. rewrite Hcheck. exact Hdb.
  - erewrite fresh_call_raises by exact Hcheck. exact Hdb.
  - unfold simulate_lineup_performance. rewrite Hcheck. exact Hdb.
Qed.

(** X7.  With the cache disabled or a refresh forced, the call sends nothing
    to the server and raises SimulationError 3011, for every lineup and
    trial count; simulator and server are as before. *)
Theorem facade_without_cache_raises (self : MonteCarloSimulator)
    (player_ids : list string) (n : Z) (force_refresh : bool)
    (now : string) (srv : Redis.server) :
  _cache_enabled self = false \/ force_refresh = true ->
  simulate_lineup_performance self player_ids n force_refresh now srv
    = (Err (SimulationError 3011), self, srv).
Proof.
  intros Hoff. apply fresh_call_raises. unfold cache_check.
  destruct Hoff as [-> | ->]; [reflexivity |].
  rewrite andb_false_r. reflexivity.
Qed.

End FacadeFacts.

(** ** The estimator on regular inputs *)

Section EstimatorShape.
Context `{Collaborators}.
Import MonteCarlo.
Local Open Scope R_scope.

Lemma total_replicate (k : nat) (x : R) : total (replicate k x) = INR k * x.
Proof.
  induction k as [|k IH].
  - cbn. lra.
  - rewrite S_INR. cbn [replicate total foldr].
    fold (total (replicate k x)). rewrite IH. lra.
Qed.

Lemma sq_dev_replicate (k : nat) (x : R) : sq_dev x (replicate k x) = 0.
Proof.
  unfold sq_dev. induction k as [|k IH]; cbn.
  - reflexivity.
  - cbn in IH. unfold total in IH. rewrite IH. lra.
Qed.

Lemma mean_replicate (k : nat) (x : R) :
  total (replicate (S k) x) / len (replicate (S k) x) = x.
Proof.
  rewrite total_replicate. unfold len. rewrite length_replicate.
  field. apply not_0_INR. lia.
Qed.

(** The interval in closed form. *)
Lemma interval_formula (a : ndarray) (c z s : R) :
  a <> [] ->
  norm_ppf ((1 + c) / 2) = Fin z ->
  np_std a = Fin s ->
  calculate_confidence_interval a (Keyword c)
    = Ok (Fin (total a / len a - z * (s / sqrt (len a))),
          Fin (total a / len a + z * (s / sqrt (len a)))).
Proof.
  intros Ha Hz Hs.
  destruct (std_error_fin a Ha) as (s' & Hs' & _ & Hdiv & _ & _).
  assert (s' = s) as -> by congruence.
  unfold calculate_confidence_interval, validate_input,
    confidence_interval_body.
  cbn [positional_args confidence_level_of].
  rewrite Hz, Hdiv, (np_mean_fin a Ha). reflexivity.
Qed.

(** X8.  On a non-empty array, called with the level by keyword and a
    finite quantile z, the estimator returns the interval centred on the
    mean with half-width z * std / sqrt(n): its two bounds add up to twice
    the mean and differ by twice that margin. *)
Theorem interval_is_centred_on_the_mean (a : ndarray) (c z : R) :
  a <> [] ->
  norm_ppf ((1 + c) / 2) = Fin z ->
  exists m s lo hi,
    np_mean a = Fin m /\ np_std a = Fin s /\
    calculate_confidence_interval a (Keyword c) = Ok (Fin lo, Fin hi) /\
    lo + hi = 2 * m /\
    hi - lo = 2 * (z * (s / sqrt (len a))).
Proof.
  intros Ha Hz.
  destruct (std_error_fin a Ha) as (s & Hs & _).
  exists (total a / len a), s.
  exists (total a / len a - z * (s / sqrt (len a))).
  exists (total a / len a + z * (s / sqrt (len a))).
  split; [apply np_mean_fin, Ha |]. split; [exact Hs |].
  split; [apply interval_formula; assumption |].
  split; lra.
Qed.

(** X9.  For a single outcome x the mean is x, the standard deviation is 0
    and the interval collapses to (x, x), for every finite quantile: the
    division by sqrt(1) needs no guard.  Every step of this computation is
    exact. *)
Theorem single_outcome_collapses_interval (x c z : R) :
  norm_ppf ((1 + c) / 2) = Fin z ->
  np_mean [x] = Fin x /\
  np_std [x] = Fin 0 /\
  calculate_confidence_interval [x] (Keyword c) = Ok (Fin x, Fin x).
Proof.
  intros Hz.
  change [x] with (replicate 1 x).
  assert (replicate 1 x <> []) as Hne by discriminate.
  assert (np_mean (replicate 1 x) = Fin x) as Hmean.
  { rewrite np_mean_fin by exact Hne. rewrite mean_replicate. reflexivity. }
  assert (np_std (replicate 1 x) = Fin 0) as Hstd.
  { rewrite np_std_fin by exact Hne.
    rewrite mean_replicate, sq_dev_replicate.
    unfold Rdiv. rewrite Rmult_0_l, sqrt_0. reflexivity. }
  split; [exact Hmean |]. split; [exact Hstd |].
  rewrite (interval_formula _ c z 0 Hne Hz Hstd).
  rewrite mean_replicate.
  do 2 f_equal; f_equal; unfold Rdiv; rewrite Rmult_0_l; lra.
Qed.

End EstimatorShape.

(** ** The sampling loops *)

Section SamplingShape.
Context `{Collaborators}.
Import MonteCarlo.
Local Open Scope R_scope.

Lemma advance_succ (k : nat) (g : bitgen) :
  advance (S k) g = advance k (standard_normal g).2.
Proof. unfold advance. apply Nat.iter_succ_r. Qed.

Lemma advance_add (a b : nat) (g : bitgen) :
  advance (a + b) g = advance b (advance a g).
Proof.
  unfold advance. rewrite Nat.add_comm. apply Nat.iter_add.
Qed.

Lemma rng_normal_state (g g' : bitgen) (loc scale points : float64) :
  rng_normal g loc scale = Ok (points, g') -> g' = (standard_normal g).2.
Proof.
  unfold rng_normal. destruct scale as [|s].
  - destruct (standard_normal g) as [z g1]. intros [= _ <-]. reflexivity.
  - destruct (Rlt_dec s 0); [discriminate |].
    destruct (standard_normal g) as [z g1]. intros [= _ <-]. reflexivity.
Qed.



(** A lineup whose players each have a history without spread, or no
    history at all, is sampled without randomness. *)
Lemma sample_players_degenerate (player_data : list ndarray) :
  Forall (fun player => np_std player = Fin 0 \/ player = []) player_data ->
  forall g,
    sample_players g player_data
    = Ok (map (fun player => py_max0 (np_mean player)) player_data,
          advance (length player_data) g).
Proof.
  induction 1 as [|player rest Hplayer _ IH]; intros g.
  - reflexivity.
  - cbn [sample_players map length]. rewrite advance_succ.
    assert (exists z g1, standard_normal g = (z, g1)) as (z & g1 & Hdraw)
      by (destruct (standard_normal g); eauto).
    assert (rng_normal g (np_mean player) (np_std player)
            = Ok (np_mean player, g1)
            \/ exists m, np_mean player = Fin m /\
                 rng_normal g (np_mean player) (np_std player)
                 = Ok (Fin (m + 0 * z), g1)) as Hcase.
    { destruct Hplayer as [Hstd | ->].
      - right. destruct player as [|x player]; [discriminate |].
        eexists. split; [reflexivity |].
        rewrite Hstd. unfold rng_normal.
        destruct (Rlt_dec 0 0) as [Hlt|_]; [lra |].
        rewrite Hdraw. reflexivity.
      - left. cbn. unfold rng_normal. rewrite Hdraw. reflexivity. }
    rewrite Hdraw. cbn [snd].
    destruct Hcase as [Hrun | (m & Hm & Hrun)]; rewrite Hrun; cbn;
      rewrite IH; cbn; [reflexivity |].
    rewrite Hm. cbn. replace (m + 0 * z) with m by lra. reflexivity.
Qed.

(** X11.  When every player of the lineup has a history with standard
    deviation 0 (or no history), each of the n trials of a chunk has the
    same outcome, the sum over the players of max(0, mean): the draws of
    the generator do not reach the outcomes.  A player without history
    counts for 0. *)
Theorem degenerate_lineup_has_constant_outcomes
    (self : MonteCarloSimulator) (player_data : list ndarray) (n : Z) :
  Forall (fun player => np_std player = Fin 0 \/ player = []) player_data ->
  (0 <= n)%Z ->
  _simulate_single_lineup self player_data n
  = Ok (replicate (Z.to_nat n)
          (total (map (fun player => py_max0 (np_mean player)) player_data))).
Proof.
  intros Hdeg Hn. unfold _simulate_single_lineup.
  destruct (Z.ltb_spec n 0) as [Hneg|_]; [lia |].
  assert (forall k g,
             run_trials k g player_data
             = Ok (replicate k
                     (total (map (fun player => py_max0 (np_mean player))
                               player_data)),
                   advance (k * length player_data) g)) as Hrun.
  { induction k as [|k IH]; intros g; [reflexivity |].
    change (S k * length player_data)%nat
      with (length player_data + k * length player_data)%nat.
    rewrite advance_add.
    cbn [run_trials]. rewrite (sample_players_degenerate _ Hdeg).
    cbn -[advance Nat.mul]. rewrite IH. reflexivity. }
  rewrite Hrun. reflexivity.
Qed.



Lemma for_each_first_error {A B : Type} (f : A -> result B)
    (before after : list A) (x : A) (ys : list B) (e : exn) :
  for_each f before = Ok ys ->
  f x = Err e ->
  for_each f (before ++ x :: after) = Err e.
Proof.
  revert ys. induction before as [|b before IH]; intros ys Hbefore Hx.
  - cbn. rewrite Hx. reflexivity.
  - cbn in *. destruct (f b) as [y|e']; [| discriminate]. cbn in *.
    destruct (for_each f before) as [ys'|e']; [| discriminate].
    rewrite (IH ys' eq_refl Hx). reflexivity.
Qed.

(** X14.  The players are preprocessed in the order of the list, and the
    first one whose preprocessing raises ends the sampling stage with that
    exception: the players after it are not preprocessed and nothing is
    sampled. *)
Theorem first_preprocessing_failure_ends_sampling
    (self : MonteCarloSimulator) (before after : list string)
    (player_id : string) (player_data : list ndarray) (n : Z) (e : exn) :
  for_each preprocess_player_data before = Ok player_data ->
  preprocess_player_data player_id = Err e ->
  sample_lineup self (before ++ player_id :: after) n = Err e.
Proof.
  intros Hbefore Hfail. unfold sample_lineup.
  rewrite (for_each_first_error _ _ _ _ _ _ Hbefore Hfail). reflexivity.
Qed.

End SamplingShape.

(** ** The clamp of the sampling engine *)

Section SamplingClaim.
Context `{Collaborators}.
Import MonteCarlo.
Local Open Scope R_scope.

Lemma draw_succ (i : nat) (g : bitgen) :
  draw (S i) g = draw i (standard_normal g).2.
Proof. unfold draw. rewrite advance_succ. reflexivity. Qed.

Lemma draw_advance (a i : nat) (g : bitgen) :
  draw i (advance a g) = draw (a + i) g.
Proof. unfold draw. rewrite advance_add. reflexivity. Qed.

(** What one call of the generator contributes to a trial. *)
Lemma rng_normal_clamped (g g' : bitgen) (loc scale points : float64) :
  rng_normal g loc scale = Ok (points, g') ->
  (forall m s, loc = Fin m -> scale = Fin s ->
     py_max0 points = Rmax 0 (m + s * (standard_normal g).1)) /\
  (scale = NaN -> py_max0 points = 0).
Proof.
  unfold rng_normal. intros Hrun. destruct scale as [|s].
  - destruct (standard_normal g) as [z g1]. injection Hrun as <- _.
    split; [intros m s _ Hs; discriminate | reflexivity].
  - destruct (Rlt_dec s 0); [discriminate |].
    destruct (standard_normal g) as [z g1]. injection Hrun as <- _.
    split; [| discriminate].
    intros m s' -> [= <-]. reflexivity.
Qed.

Lemma sample_players_spec (player_data : list ndarray) :
  forall g, exists samples,
    sample_players g player_data
      = Ok (samples, advance (length player_data) g) /\
    length samples = length player_data /\
    Forall (fun x => 0 <= x) samples /\
    forall i player,
      player_data !! i = Some player ->
      (forall m s, np_mean player = Fin m -> np_std player = Fin s ->
         samples !! i = Some (Rmax 0 (m + s * draw i g))) /\
      (player = [] -> samples !! i = Some 0).
Proof.
  induction player_data as [|player rest IH]; intros g.
  - exists []. split; [reflexivity |]. split; [reflexivity |].
    split; [constructor |]. intros i p Hp. discriminate.
  - destruct (rng_normal_player g player) as (points & g1 & Hdraw).
    pose proof (rng_normal_state _ _ _ _ _ Hdraw) as ->.
    destruct (rng_normal_clamped _ _ _ _ _ Hdraw) as [Hfin Hnan].
    destruct (IH (standard_normal g).2)
      as (more & Hrest & Hlen & Hpos & Hspec).
    exists (py_max0 points :: more).
    cbn [sample_players length]. rewrite advance_succ, Hdraw. cbn.
    rewrite Hrest. cbn.
    split; [reflexivity |]. split; [f_equal; exact Hlen |].
    split; [constructor; [apply py_max0_nonneg | exact Hpos] |].
    intros [|i] p Hp; cbn in Hp.
    + injection Hp as <-. split.
      * intros m s Hm Hs. cbn. rewrite (Hfin m s Hm Hs). reflexivity.
      * intros ->. cbn. rewrite Hnan by reflexivity. reflexivity.
    + destruct (Hspec i p Hp) as [Hi Hempty]. split.
      * intros m s Hm Hs. cbn. rewrite draw_succ. apply Hi; assumption.
      * intros Hp0. cbn. apply Hempty, Hp0.
Qed.

Lemma run_trials_spec (player_data : list ndarray) (k : nat) :
  forall g, exists results,
    run_trials k g player_data
      = Ok (results, advance (k * length player_data) g) /\
    length results = k /\
    Forall (fun x => 0 <= x) results /\
    forall t, (t < k)%nat ->
      exists samples,
        results !! t = Some (total samples) /\
        length samples = length player_data /\
        Forall (fun x => 0 <= x) samples /\
        forall i player,
          player_data !! i = Some player ->
          (forall m s, np_mean player = Fin m -> np_std player = Fin s ->
             samples !! i
             = Some (Rmax 0 (m + s * draw (t * length player_data + i) g))) /\
          (player = [] -> samples !! i = Some 0).
Proof.
  induction k as [|k IH]; intros g.
  - exists []. split; [reflexivity |]. split; [reflexivity |].
    split; [constructor |]. intros t Ht. lia.
  - destruct (sample_players_spec player_data g)
      as (samples & Hrun & Hlen & Hpos & Hspec).
    destruct (IH (advance (length player_data) g))
      as (results & Hrest & Hcount & Hall & Htrials).
    exists (total samples :: results).
    change (S k * length player_data)%nat
      with (length player_data + k * length player_data)%nat.
    rewrite advance_add.
    cbn [run_trials]. rewrite Hrun. cbn -[advance Nat.mul].
    rewrite Hrest. cbn -[advance Nat.mul].
    split; [reflexivity |]. split; [f_equal; exact Hcount |].
    split; [constructor; [apply total_nonneg, Hpos | exact Hall] |].
    intros [|t] Ht.
    + exists samples. cbn. split; [reflexivity |]. split; [exact Hlen |].
      split; [exact Hpos |]. exact Hspec.
    + destruct (Htrials t ltac:(lia))
        as (samples' & Hlook & Hlen' & Hpos' & Hspec').
      exists samples'. cbn -[Nat.mul]. split; [exact Hlook |].
      split; [exact Hlen' |]. split; [exact Hpos' |].
      intros i player Hp. destruct (Hspec' i player Hp) as [Hi Hempty].
      split; [| exact Hempty].
      intros m s Hm Hs. rewrite (Hi m s Hm Hs), draw_advance.
      replace (length player_data + (t * length player_data + i))%nat
        with (S t * length player_data + i)%nat by lia.
      reflexivity.
Qed.

(** The mean of line 136 over concatenated chunks of outcomes is never a
    negative number. *)
Lemma concatenated_outcomes_mean (player_data : list ndarray)
    (arrays : list ndarray) (combined : ndarray) (m : R) :
  Forall (fun a => exists worker k,
             _simulate_single_lineup worker player_data k = Ok a) arrays ->
  np_concatenate arrays = Ok combined ->
  np_mean combined = Fin m ->
  0 <= m.
Proof.
  intros Hchunks Hcat Hmean.
  assert (Forall (fun x => 0 <= x) (concat arrays)) as Hpos.
  { clear Hcat Hmean.
    induction Hchunks as [|a rest (worker & k & Hrun) _ IH]; cbn.
    - constructor.
    - apply Forall_app. split; [| exact IH].
      exact (simulate_single_lineup_nonneg worker player_data k a Hrun). }
  assert (combined = concat arrays) as ->.
  { destruct arrays; [discriminate |].
    unfold np_concatenate in Hcat. injection Hcat as <-. reflexivity. }
  destruct (concat arrays) as [|x rest] eqn:Hshape; [discriminate |].
  destruct (np_mean_nonneg (x :: rest)) as (m' & Hm' & Hle);
    [discriminate | exact Hpos |].
  congruence.
Qed.

(** C9.  Every trial that the sampling engine produces is the sum, over
    the players of the lineup, of the clamped samples
    max(0, mean + std * z), with z the successive standard normal draws of
    the generator (0 for a player without history): the engine called for
    n >= 1 trials returns n such outcomes, each of them >= 0, and the mean
    of those outcomes is >= 0, whatever the players' means and standard
    deviations.  The mean that line 136 takes over concatenated chunks of
    such outcomes is never a negative number either. *)
Theorem trial_outcomes_are_sums_of_clamped_samples
    (self : MonteCarloSimulator) (player_data : list ndarray) (n : Z) :
  (1 <= n)%Z ->
  exists results,
    _simulate_single_lineup self player_data n = Ok results /\
    length results = Z.to_nat n /\
    (forall t, (t < Z.to_nat n)%nat ->
       exists samples,
         results !! t = Some (total samples) /\
         length samples = length player_data /\
         Forall (fun x => 0 <= x) samples /\
         forall i player,
           player_data !! i = Some player ->
           (forall m s, np_mean player = Fin m -> np_std player = Fin s ->
              samples !! i
              = Some (Rmax 0
                        (m + s * draw (t * length player_data + i)
                                   (_rng self)))) /\
           (player = [] -> samples !! i = Some 0)) /\
    Forall (fun x => 0 <= x) results /\
    (exists m, np_mean results = Fin m /\ 0 <= m) /\
    forall (arrays : list ndarray) (combined : ndarray) (m : R),
      Forall (fun a => exists worker k,
                 _simulate_single_lineup worker player_data k = Ok a)
             arrays ->
      np_concatenate arrays = Ok combined ->
      np_mean combined = Fin m ->
      0 <= m.
Proof.
  intros Hn.
  destruct (run_trials_spec player_data (Z.to_nat n) (_rng self))
    as (results & Hrun & Hlen & Hpos & Htrials).
  exists results. unfold _simulate_single_lineup at 1.
  destruct (Z.ltb_spec n 0) as [Hneg|_]; [lia |].
  rewrite Hrun. cbn -[advance Nat.mul].
  split; [reflexivity |]. split; [exact Hlen |].
  split; [exact Htrials |]. split; [exact Hpos |]. split.
  - apply np_mean_nonneg; [| exact Hpos].
    destruct results; [cbn in Hlen; lia | discriminate].
  - intros arrays combined m Hchunks Hcat Hmean.
    eapply concatenated_outcomes_mean; eassumption.
Qed.

End SamplingClaim.

(** ** The worker task and its cache *)

Section TaskFacts.
Context `{Collaborators}.
Import MonteCarlo SimulationTasks.

Lemma get_ok_inv (svc svc' : Redis.RedisService) (key : string)
    (srv srv' : Redis.server) (found : option SimulationResult) :
  Redis.get svc key srv = (Ok found, svc', srv') ->
  found = Redis.db srv !! key /\ svc' = svc /\ Redis.db srv' = Redis.db srv.
Proof.
  intros Hget.
  pose proof (get_keeps_db svc key srv) as Hdb. rewrite Hget in Hdb.
  unfold Redis.get, Redis.client_get in Hget.
  destruct (Redis._healthy svc); cbn in Hget; [| discriminate].
  pose proof (command_keeps_db srv) as Hcmd.
  destruct (Redis.command srv) as [[[]|e] srv0]; cbn in *; [| discriminate].
  injection Hget as <- <- <-. rewrite Hcmd. auto.
Qed.

Lemma facade_ok_inv (self self' : MonteCarloSimulator)
    (player_ids : list string) (n : Z) (force_refresh : bool) (now : string)
    (srv srv' : Redis.server) (d : SimulationResult) :
  simulate_lineup_performance self player_ids n force_refresh now srv
    = (Ok d, self', srv') ->
  Redis.db srv !! lineup_cache_key player_ids = Some d /\
  Redis.db srv' = Redis.db srv.
Proof.
  intros Hrun.
  destruct (cache_check self (lineup_cache_key player_ids) force_refresh srv)
    as [[looked self1] srv1] eqn:Hcheck.
  destruct looked as [[d'|]|e].
  - unfold simulate_lineup_performance in Hrun. rewrite Hcheck in Hrun.
    injection Hrun as -> _ <-.
    unfold cache_check in Hcheck.
    destruct (_cache_enabled self && negb force_refresh); [| discriminate].
    destruct (Redis.get _ _ srv) as [[r svc] srv0] eqn:Hget.
    injection Hcheck as -> _ <-.
    apply get_ok_inv in Hget as (Hfound & _ & Hdb). auto.
  - erewrite fresh_call_raises in Hrun by exact Hcheck. discriminate.
  - unfold simulate_lineup_performance in Hrun. rewrite Hcheck in Hrun.
    discriminate.
Qed.

Lemma set_ok_inv (svc svc' : Redis.RedisService) (key : string)
    (value : SimulationResult) (ttl : Z) (srv srv' : Redis.server)
    (ok : bool) :
  Redis.set svc key value ttl srv = (Ok ok, svc', srv') ->
  Redis.db srv' = <[key := value]> (Redis.db srv).
Proof.
  unfold Redis.set, Redis.client_setex. intros Hset.
  destruct (Redis._healthy svc); cbn in Hset; [| discriminate].
  pose proof (command_keeps_db srv) as Hdb.
  destruct (Redis.command srv) as [[[]|e] srv0]; cbn in *; [| discriminate].
  injection Hset as _ _ <-. cbn. rewrite Hdb. reflexivity.
Qed.

(** Every result of the task is an entry of the cache, marked: one found
    under the task's key, or one that the simulator found under its own key
    and that the task then stored under the task's key. *)
Lemma task_ok_inv (player_ids : list string) (n : Z) (force_refresh : bool)
    (entropy : Z) (now_sim now : string) (srv srv' : Redis.server)
    (r : SimulationResult) :
  simulate_lineup_task player_ids n force_refresh entropy now_sim now srv
    = (Ok r, srv') ->
  exists d,
    (force_refresh = false /\
     Redis.db srv !! generate_cache_key "lineup" player_ids = Some d /\
     r = mark d true now /\
     Redis.db srv' = Redis.db srv)
    \/
    (Redis.db srv !! lineup_cache_key player_ids = Some d /\
     r = mark d false now /\
     Redis.db srv'
       = <[generate_cache_key "lineup" player_ids := d]> (Redis.db srv)).
Proof.
  unfold simulate_lineup_task. intros Hrun.
  destruct (if negb force_refresh
            then Redis.get Redis.RedisService_init
                   (generate_cache_key "lineup" player_ids) srv
            else (Ok None, Redis.RedisService_init, srv))
    as [[looked svc1] srv1] eqn:Hlook.
  assert (Redis.db srv1 = Redis.db srv /\
          forall d, looked = Ok (Some d) ->
            force_refresh = false /\
            Redis.db srv !! generate_cache_key "lineup" player_ids = Some d)
    as [Hdb1 Hhit].
  { destruct force_refresh; cbn [negb] in Hlook.
    - injection Hlook as <- _ <-. split; [reflexivity | discriminate].
    - destruct looked as [found|e].
      + apply get_ok_inv in Hlook as (-> & _ & Hdb). split; [exact Hdb |].
        intros d [= Hd]. auto.
      + pose proof (get_keeps_db Redis.RedisService_init
                      (generate_cache_key "lineup" player_ids) srv) as Hdb.
        rewrite Hlook in Hdb. split; [exact Hdb | discriminate]. }
  destruct looked as [[d|]|e]; [| | discriminate].
  - injection Hrun as <- <-. exists d. left.
    destruct (Hhit d eq_refl) as [-> Hfound]. auto.
  - destruct (simulate_lineup_performance _ player_ids n false now_sim srv1)
      as [[[results|e] sim'] srv2] eqn:Hsim; [| discriminate].
    apply facade_ok_inv in Hsim as [Hfound Hdb2].
    destruct (Redis.set svc1 _ results CACHE_TTL_SECONDS srv2)
      as [[[ok|e] svc3] srv3] eqn:Hset; [| discriminate].
    injection Hrun as <- <-.
    apply set_ok_inv in Hset.
    exists results. right.
    rewrite Hdb1 in Hfound. rewrite Hset, Hdb2, Hdb1. auto.
Qed.

(** X15.  The task's cache does not depend on the order of the player ids:
    when an entry is stored under the task's key of a lineup, the task
    called without refresh for any permutation of that lineup, and for any
    trial count, returns that entry with cached = True and its own
    timestamp, without building a simulator. *)
Theorem task_hits_cache_for_permuted_lineup
    (stored_ids player_ids : list string) (n : Z) (entropy : Z)
    (now_sim now : string) (srv srv' : Redis.server)
    (svc : Redis.RedisService) (d : SimulationResult) :
  player_ids ≡ₚ stored_ids ->
  Redis.get Redis.RedisService_init
    (generate_cache_key "lineup" stored_ids) srv = (Ok (Some d), svc, srv') ->
  simulate_lineup_task player_ids n false entropy now_sim now srv
    = (Ok (mark d true now), srv').
Proof.
  intros Hperm Hget. unfold simulate_lineup_task.
  rewrite (generate_cache_key_permutation "lineup" _ _ Hperm).
  cbn [negb]. rewrite Hget. reflexivity.
Qed.

(** X16.  The key of a trade analysis is built from the ids of both sides
    sorted together: it is the same when the two sides are swapped, and the
    same when a player is moved from one side to the other. *)
Theorem trade_cache_key_ignores_the_sides
    (players_offered players_requested : list string) (player : string) :
  trade_cache_key players_offered players_requested
    = trade_cache_key players_requested players_offered /\
  trade_cache_key (players_offered ++ [player]) players_requested
    = trade_cache_key players_offered (player :: players_requested).
Proof.
  unfold trade_cache_key. split.
  - apply generate_cache_key_permutation. apply Permutation_app_comm.
  - rewrite <- app_assoc. reflexivity.
Qed.


(** X18.  The task never returns a result that the simulator computed: a
    result marked cached = True is the entry under the task's key, and a
    result marked cached = False is the entry that the simulator read under
    its own key, which the task has then stored under the task's key. *)
Theorem task_results_come_from_the_cache
    (player_ids : list string) (n : Z) (force_refresh : bool)
    (entropy : Z) (now_sim now : string) (srv srv' : Redis.server)
    (r : SimulationResult) :
  simulate_lineup_task player_ids n force_refresh entropy now_sim now srv
    = (Ok r, srv') ->
  exists d,
    (cached r = Some true /\ force_refresh = false /\
     Redis.db srv !! generate_cache_key "lineup" player_ids = Some d /\
     r = mark d true now /\ Redis.db srv' = Redis.db srv)
    \/
    (cached r = Some false /\
     Redis.db srv !! lineup_cache_key player_ids = Some d /\
     r = mark d false now /\
     Redis.db srv' !! generate_cache_key "lineup" player_ids = Some d).
Proof.
  intros Hrun.
  apply task_ok_inv in Hrun as (d & [(Hf & Hd & -> & Hdb) | (Hd & -> & Hdb)]);
    exists d.
  - left. auto.
  - right. rewrite Hdb, lookup_insert_eq. auto.
Qed.

End TaskFacts.

(** ** BaseAppException: what the details of an error expose *)

Section ExceptionFacts.
Import AppException.

Lemma sanitize_lookup (supplied : gmap string detail_value) (key : string) :
  _sanitize_details supplied !! key
  = (fun value => if is_sensitive key then REDACTED else value)
      <$> supplied !! key.
Proof.
  unfold _sanitize_details. rewrite map_lookup_imap.
  destruct (supplied !! key); reflexivity.
Qed.

Lemma sanitize_empty_iff (supplied : gmap string detail_value) :
  _sanitize_details supplied = ∅ <-> supplied = ∅.
Proof.
  split.
  - intros Hempty. apply map_empty. intros key.
    pose proof (sanitize_lookup supplied key) as Hl.
    rewrite Hempty, lookup_empty in Hl.
    destruct (supplied !! key); [discriminate | reflexivity].
  - intros ->. apply map_empty. intros key.
    rewrite sanitize_lookup, lookup_empty. reflexivity.
Qed.

(** X20.  The details kept in an exception have the keys that were supplied;
    under a key that contains, in any letter case, one of password, token,
    secret, key or credential the value is replaced by the text [REDACTED],
    and under every other key the value is the one supplied. *)
Theorem exception_details_are_redacted (msg : string) (status code : Z)
    (supplied : gmap string detail_value) (cid : option string)
    (uuid4 now : string) :
  let e := init msg status code (Some supplied) cid uuid4 now in
  dom (details e) = dom supplied /\
  forall key,
    details e !! key
    = (fun value => if is_sensitive key then REDACTED else value)
        <$> supplied !! key.
Proof.
  cbv zeta. cbn [init details default]. split.
  - apply set_eq. intros key.
    rewrite !elem_of_dom, sanitize_lookup, fmap_is_Some. reflexivity.
  - apply sanitize_lookup.
Qed.

(** X22.  Sanitizing is idempotent: details that went through an exception
    once are unchanged when a second exception is built from them. *)
Theorem sanitize_details_is_idempotent
    (supplied : gmap string detail_value) :
  _sanitize_details (_sanitize_details supplied) = _sanitize_details supplied.
Proof.
  apply map_eq. intros key. rewrite !sanitize_lookup.
  destruct (supplied !! key) as [v|]; destruct (is_sensitive key);
    reflexivity.
Qed.

(** X23.  The dict of an exception has a details entry exactly when
    non-empty details were supplied, and then every sensitive key of that
    entry holds [REDACTED]; its correlation id is the one supplied unless
    that is missing or empty, in which case it is the fresh uuid. *)
Theorem to_dict_exposes_only_sanitized_details (msg : string)
    (status code : Z) (supplied : option (gmap string detail_value))
    (cid : option string) (uuid4 now : string) :
  let d := to_dict (init msg status code supplied cid uuid4 now) in
  (dict_details d = None <-> default ∅ supplied = ∅) /\
  (forall shown key value,
      dict_details d = Some shown ->
      shown !! key = Some value ->
      is_sensitive key = true ->
      value = REDACTED) /\
  (forall c, cid = Some c -> c <> EmptyString -> dict_correlation_id d = c) /\
  (cid = None \/ cid = Some EmptyString -> dict_correlation_id d = uuid4).
Proof.
  cbv zeta. unfold to_dict. cbn [init details correlation_id dict_details
                                  dict_correlation_id].
  split; [| split; [| split]].
  - destruct (decide (_sanitize_details (default ∅ supplied) = ∅)) as [He|Hne].
    + split; [intros _; apply sanitize_empty_iff, He | reflexivity].
    + split; [discriminate |].
      intros He. exfalso. apply Hne, sanitize_empty_iff, He.
  - intros shown key value Hshown Hkey Hsens.
    destruct (decide (_sanitize_details (default ∅ supplied) = ∅));
      [discriminate |].
    injection Hshown as <-. rewrite sanitize_lookup, Hsens in Hkey.
    destruct (default ∅ supplied !! key); cbn in Hkey; congruence.
  - intros c -> Hc. unfold or_else.
    destruct (decide (c = EmptyString)); [contradiction | reflexivity].
  - intros [-> | ->]; reflexivity.
Qed.

End ExceptionFacts.

(** ** Instances of the further properties *)

Section ConcreteFurther.
Import MonteCarlo SimulationTasks.
Local Existing Instance Demo.collaborators.
Local Open Scope R_scope.

Lemma demo_get_pair :
  Redis.get Redis.RedisService_init
    (generate_cache_key "lineup" ["p1"; "p2"]) Demo.pair_server
  = (Ok (Some Demo.stored), Redis.RedisService_init, Demo.pair_server).
Proof.
  unfold Redis.get, Redis.client_get, Redis.command, Demo.pair_server.
  cbn. rewrite lookup_singleton_eq. reflexivity.
Qed.

Lemma demo_task_hit :
  simulate_lineup_task ["p1"] 8 false 0 "2024-01-01T00:00:00"
    "2024-01-01T00:00:01" Demo.task_warm_server
  = (Ok (mark Demo.stored true "2024-01-01T00:00:01"), Demo.task_warm_server).
Proof.
  unfold simulate_lineup_task, Redis.get, Redis.client_get, Redis.command,
    Demo.task_warm_server.
  cbn. rewrite lookup_singleton_eq. reflexivity.
Qed.

Lemma demo_flat_lineup :
  Forall (fun player : ndarray => np_std player = Fin 0 \/ player = [])
    Demo.flat_lineup.
Proof.
  unfold Demo.flat_lineup.
  apply Forall_cons. split; [| apply Forall_cons; split; [| apply Forall_nil]].
  - left. change [4; 4; 4] with (replicate 3 4).
    rewrite np_std_fin by discriminate.
    rewrite mean_replicate, sq_dev_replicate.
    unfold Rdiv. rewrite Rmult_0_l, sqrt_0. reflexivity.
  - right. reflexivity.
  - exact I.
Qed.

(** X1 on an empty server. *)
Lemma redis_set_then_get_witness :
  Redis.set Redis.RedisService_init "k" Demo.stored 3600 Demo.empty_server
  = (Ok true, Redis.RedisService_init,
     {| Redis.outages := []; Redis.db := <["k" := Demo.stored]> ∅ |}) /\
  outcome (Redis.get Redis.RedisService_init "k"
             {| Redis.outages := []; Redis.db := <["k" := Demo.stored]> ∅ |})
  = Ok (Some Demo.stored).
Proof.
  split; [reflexivity |].
  apply (redis_set_then_get Redis.RedisService_init Redis.RedisService_init
           "k" Demo.stored 3600 Demo.empty_server
           {| Redis.outages := []; Redis.db := <["k" := Demo.stored]> ∅ |}
           true); reflexivity.
Defined.

(** X2 on the server that holds an entry for ["p1"]. *)
Lemma redis_delete_then_get_witness :
  Redis.delete Redis.RedisService_init (lineup_cache_key ["p1"])
    Demo.warm_server
  = (Ok true, Redis.RedisService_init,
     {| Redis.outages := [];
        Redis.db := base.delete (lineup_cache_key ["p1"])
                      (Redis.db Demo.warm_server) |}) /\
  outcome (Redis.get Redis.RedisService_init (lineup_cache_key ["p1"])
             {| Redis.outages := [];
                Redis.db := base.delete (lineup_cache_key ["p1"])
                              (Redis.db Demo.warm_server) |})
  = Ok None.
Proof.
  split; [reflexivity |].
  apply (redis_delete_then_get Redis.RedisService_init
           Redis.RedisService_init (lineup_cache_key ["p1"]) Demo.warm_server
           {| Redis.outages := [];
              Redis.db := base.delete (lineup_cache_key ["p1"])
                            (Redis.db Demo.warm_server) |}
           true); reflexivity.
Defined.

(** X3 on a server whose first command times out. *)
Lemma redis_get_failure_latches_witness :
  Redis.get Redis.RedisService_init "k" Demo.failing_server
  = (Err (IntegrationError 6000), {| Redis._healthy := false |},
     Demo.empty_server) /\
  Redis.get {| Redis._healthy := false |} "k" Demo.warm_server
  = (Err (IntegrationError 6000), {| Redis._healthy := false |},
     Demo.warm_server).
Proof.
  split; [reflexivity |].
  apply (redis_get_failure_latches Redis.RedisService_init
           {| Redis._healthy := false |} "k" Demo.failing_server
           Demo.empty_server (IntegrationError 6000) eq_refl).
  - exact Demo.stored.
  - exact 0%Z.
Defined.

(** X4 on a server whose first command times out. *)
Lemma redis_failed_write_changes_nothing_witness :
  Redis.set Redis.RedisService_init "k" Demo.stored 3600 Demo.failing_server
  = (Err (IntegrationError 6000), {| Redis._healthy := false |},
     Demo.empty_server) /\
  Redis.db Demo.empty_server = Redis.db Demo.failing_server.
Proof.
  split; [reflexivity |].
  apply (redis_failed_write_changes_nothing Redis.RedisService_init
           {| Redis._healthy := false |} "k" Demo.stored 3600
           Demo.failing_server Demo.empty_server (IntegrationError 6000)).
  left. reflexivity.
Defined.

(** X7 with a forced refresh on the server that holds an entry. *)
Lemma facade_without_cache_raises_witness :
  simulate_lineup_performance Demo.simulator ["p1"] 8 true
    "2024-01-01T00:00:00" Demo.warm_server
  = (Err (SimulationError 3011), Demo.simulator, Demo.warm_server).
Proof.
  apply (facade_without_cache_raises Demo.simulator ["p1"] 8 true
           "2024-01-01T00:00:00" Demo.warm_server).
  right. reflexivity.
Defined.

(** X8 at the outcomes 0 and 2. *)
Lemma interval_is_centred_on_the_mean_witness :
  Demo.two_outcomes <> [] /\
  norm_ppf ((1 + 95 / 100) / 2) = Fin (1959964 / 1000000) /\
  exists m s lo hi,
    np_mean Demo.two_outcomes = Fin m /\ np_std Demo.two_outcomes = Fin s /\
    calculate_confidence_interval Demo.two_outcomes (Keyword (95 / 100))
      = Ok (Fin lo, Fin hi) /\
    lo + hi = 2 * m /\
    hi - lo = 2 * (1959964 / 1000000 * (s / sqrt (len Demo.two_outcomes))).
Proof.
  split; [discriminate |]. split; [reflexivity |].
  apply (interval_is_centred_on_the_mean Demo.two_outcomes (95 / 100)
           (1959964 / 1000000)); [discriminate | reflexivity].
Defined.

(** X9 for the single outcome 5. *)
Lemma single_outcome_collapses_interval_witness :
  norm_ppf ((1 + 95 / 100) / 2) = Fin (1959964 / 1000000) /\
  calculate_confidence_interval [5] (Keyword (95 / 100))
  = Ok (Fin 5, Fin 5).
Proof.
  split; [reflexivity |].
  apply (single_outcome_collapses_interval 5 (95 / 100)
           (1959964 / 1000000)). reflexivity.
Defined.

(** X11 for the lineup without spread, 8 trials. *)
Lemma degenerate_lineup_has_constant_outcomes_witness :
  (0 <= 8)%Z /\
  _simulate_single_lineup Demo.simulator Demo.flat_lineup 8
  = Ok (replicate 8
          (total (map (fun player => py_max0 (np_mean player))
                    Demo.flat_lineup))).
Proof.
  split; [lia |].
  apply (degenerate_lineup_has_constant_outcomes Demo.simulator
           Demo.flat_lineup 8 demo_flat_lineup). lia.
Defined.


(** X14 for a lineup whose second player cannot be preprocessed. *)
Lemma first_preprocessing_failure_ends_sampling_witness :
  for_each preprocess_player_data ["p1"] = Ok [[10; 20]] /\
  preprocess_player_data "ghost" = Err (ValidationError 3005) /\
  sample_lineup Demo.simulator (["p1"] ++ "ghost" :: ["p2"]) 8
  = Err (ValidationError 3005).
Proof.
  split; [reflexivity |]. split; [reflexivity |].
  apply (first_preprocessing_failure_ends_sampling Demo.simulator ["p1"]
           ["p2"] "ghost" [[10; 20]] 8 (ValidationError 3005));
    reflexivity.
Defined.

(** X15 for the lineup of "p1" and "p2", asked in the other order. *)
Lemma task_hits_cache_for_permuted_lineup_witness :
  ["p2"; "p1"] ≡ₚ ["p1"; "p2"] /\
  simulate_lineup_task ["p2"; "p1"] 500 false 0 "2024-01-01T00:00:00"
    "2024-01-01T00:00:01" Demo.pair_server
  = (Ok (mark Demo.stored true "2024-01-01T00:00:01"), Demo.pair_server).
Proof.
  split; [apply Permutation_swap |].
  apply (task_hits_cache_for_permuted_lineup ["p1"; "p2"] ["p2"; "p1"] 500 0
           "2024-01-01T00:00:00" "2024-01-01T00:00:01" Demo.pair_server
           Demo.pair_server Redis.RedisService_init Demo.stored);
    [apply Permutation_swap | exact demo_get_pair].
Defined.


(** X18 for a call that was served from the task's cache. *)
Lemma task_results_come_from_the_cache_witness :
  exists d,
    (cached (mark Demo.stored true "2024-01-01T00:00:01") = Some true /\
     false = false /\
     Redis.db Demo.task_warm_server !! generate_cache_key "lineup" ["p1"]
       = Some d /\
     mark Demo.stored true "2024-01-01T00:00:01"
       = mark d true "2024-01-01T00:00:01" /\
     Redis.db Demo.task_warm_server = Redis.db Demo.task_warm_server)
    \/
    (cached (mark Demo.stored true "2024-01-01T00:00:01") = Some false /\
     Redis.db Demo.task_warm_server !! lineup_cache_key ["p1"] = Some d /\
     mark Demo.stored true "2024-01-01T00:00:01"
       = mark d false "2024-01-01T00:00:01" /\
     Redis.db Demo.task_warm_server !! generate_cache_key "lineup" ["p1"]
       = Some d).
Proof.
  exact (task_results_come_from_the_cache ["p1"] 8 false 0
           "2024-01-01T00:00:00" "2024-01-01T00:00:01"
           Demo.task_warm_server Demo.task_warm_server
           (mark Demo.stored true "2024-01-01T00:00:01") demo_task_hit).
Defined.

(** C9 for a lineup of two players and a chunk of 8 trials. *)
Lemma trial_outcomes_are_sums_of_clamped_samples_witness :
  (1 <= 8)%Z /\
  exists results,
    _simulate_single_lineup Demo.simulator [[10; 20]; [4; 4; 4]] 8
      = Ok results /\
    length results = Z.to_nat 8 /\
    (forall t, (t < Z.to_nat 8)%nat ->
       exists samples,
         results !! t = Some (total samples) /\
         length samples = length [[10; 20]; [4; 4; 4]] /\
         Forall (fun x => 0 <= x) samples /\
         forall i player,
           [[10; 20]; [4; 4; 4]] !! i = Some player ->
           (forall m s, np_mean player = Fin m -> np_std player = Fin s ->
              samples !! i
              = Some (Rmax 0
                        (m + s * draw (t * length [[10; 20]; [4; 4; 4]] + i)
                                   (_rng Demo.simulator)))) /\
           (player = [] -> samples !! i = Some 0)) /\
    Forall (fun x => 0 <= x) results /\
    (exists m, np_mean results = Fin m /\ 0 <= m) /\
    forall (arrays : list ndarray) (combined : ndarray) (m : R),
      Forall (fun a => exists worker k,
                 _simulate_single_lineup worker [[10; 20]; [4; 4; 4]] k
                 = Ok a)
             arrays ->
      np_concatenate arrays = Ok combined ->
      np_mean combined = Fin m ->
      0 <= m.
Proof.
  split; [lia |].
  apply (trial_outcomes_are_sums_of_clamped_samples Demo.simulator
           [[10; 20]; [4; 4; 4]] 8).
  lia.
Defined.

End ConcreteFurther.
